(** * The Lex turn handler of the agent Lambda: a shallow embedding

    Source: [src/agent/lambda/agent-handler/lambda_function.py].

    The handler receives one Lex V2 turn event (a JSON object), routes it
    by intent name and answers with one dialog directive (another JSON
    object).  The Python code works on untyped dictionaries, so the
    embedding keeps them untyped as well: a [json] value is what
    [json.loads] produces, subscripting can raise [KeyError] or
    [TypeError], and truth tests follow Python's rules.

    Strings are sequences of bytes holding the UTF-8 encoding of the Python
    text; equality and emptiness, the only string tests the handler makes,
    agree on both views.  Numbers are integers: no handler inspects a
    number beyond its truth value.

    The entry point [handler(event, context)] sets the process time zone
    and returns [dispatch(event)]; the embedding starts at [dispatch]. *)

From Stdlib Require Import ZArith Ascii String.
From stdpp Require Import gmap strings list fin_maps.

#[local] Set Warnings "-register-all".
#[local] Open Scope string_scope.
#[local] Open Scope Z_scope.

(** ** JSON values *)

Inductive json : Type :=
| JNull
| JBool (b : bool)
| JNum (n : Z)
| JStr (s : string)
| JList (l : list json)
| JDict (d : gmap string json).

(** A dictionary display [{k1: v1, ...}]. *)
Definition dict (entries : list (string * json)) : json :=
  JDict (list_to_map entries).

(** ** Exceptions and results *)

Inductive exn : Type :=
| KeyError (key : string)
| TypeError
| AttributeError
| UnboundLocalError (name : string)
| Exception (msg : string).

Inductive result (A : Type) : Type :=
| Ok (a : A)
| Raise (e : exn).
Arguments Ok {A} a.
Arguments Raise {A} e.

#[global] Instance result_ret : MRet result := fun _ a => Ok a.
#[global] Instance result_bind : MBind result := fun _ _ f m =>
  match m with
  | Ok a => f a
  | Raise e => Raise e
  end.
#[global] Instance result_throw : MThrow exn result := fun _ e => Raise e.

(** ** Python primitives on JSON values *)

(** [bool(v)]: [None], [False], zero and empty containers are false. *)
Definition truthy (v : json) : bool :=
  match v with
  | JNull => false
  | JBool b => b
  | JNum n => negb (n =? 0)
  | JStr s => negb (Nat.eqb (String.length s) 0)
  | JList l => negb (Nat.eqb (length l) 0)
  | JDict d => negb (Nat.eqb (size d) 0)
  end.

(** [v == "s"] for a string literal: only that very string is equal. *)
Definition eq_str (v : json) (s : string) : bool :=
  match v with
  | JStr t => String.eqb t s
  | _ => false
  end.

(** [v[k]] with a string key. *)
Definition getitem (v : json) (k : string) : result json :=
  match v with
  | JDict d =>
      match d !! k with
      | Some x => Ok x
      | None => Raise (KeyError k)
      end
  | _ => Raise TypeError
  end.

(** [v.get(k, default)]; only dictionaries have the method. *)
Definition get (v : json) (k : string) (default : json) : result json :=
  match v with
  | JDict d =>
      match d !! k with
      | Some x => Ok x
      | None => Ok default
      end
  | _ => Raise AttributeError
  end.

(** [a or b] *)
Definition or_else (a b : json) : json := if truthy a then a else b.

(** ["literal" + v]: concatenation needs a string on the right. *)
Definition str_add (s : string) (v : json) : result string :=
  match v with
  | JStr t => Ok (s +:+ t)
  | _ => Raise TypeError
  end.

Definition nl : string := String "010"%char EmptyString.

(** ** Lex v2 request/response helpers *)

Definition elicit_slot (session_attributes active_contexts intent : json)
    (slot_to_elicit : json) (message : json) : json :=
  dict [
    ("sessionState", dict [
      ("activeContexts", JList [
        dict [
          ("name", JStr "intentContext");
          ("contextAttributes", active_contexts);
          ("timeToLive", dict [("timeToLiveInSeconds", JNum 86400);
                               ("turnsToLive", JNum 20)])
        ]
      ]);
      ("sessionAttributes", session_attributes);
      ("dialogAction", dict [("type", JStr "ElicitSlot");
                             ("slotToElicit", slot_to_elicit)]);
      ("intent", intent)
    ]);
    ("messages", JList [
      dict [("contentType", JStr "PlainText"); ("content", message)]
    ])
  ].

Definition elicit_intent (intent_request session_attributes message : json)
    : json :=
  dict [
    ("sessionState", dict [
      ("dialogAction", dict [("type", JStr "ElicitIntent")]);
      ("sessionAttributes", session_attributes)
    ]);
    ("messages", JList [
      dict [("contentType", JStr "PlainText"); ("content", message)];
      dict [
        ("contentType", JStr "ImageResponseCard");
        ("imageResponseCard", dict [
          ("buttons", JList [
            dict [("text", JStr "Emergency Helpline");
                  ("value", JStr "Emergency Helpline")];
            dict [("text", JStr "Ask Alex Buddy");
                  ("value",
                   JStr "What kind of questions can Alex Buddy answer?")]
          ]);
          ("title", JStr "How can I help you?")
        ])
      ]
    ])
  ].

Definition delegate (session_attributes active_contexts intent message : json)
    : json :=
  dict [
    ("sessionState", dict [
      ("activeContexts", JList [
        dict [
          ("name", JStr "intentContext");
          ("contextAttributes", active_contexts);
          ("timeToLive", dict [("timeToLiveInSeconds", JNum 86400);
                               ("turnsToLive", JNum 20)])
        ]
      ]);
      ("sessionAttributes", session_attributes);
      ("dialogAction", dict [("type", JStr "Delegate")]);
      ("intent", intent)
    ]);
    ("messages", JList [
      dict [("contentType", JStr "PlainText"); ("content", message)]
    ])
  ].

(** Safely access slots dictionary values. *)
Definition try_ex (value : json) : result json :=
  match value with
  | JNull => Ok JNull
  | _ =>
      inner ← getitem value "value";
      resolved ← getitem inner "resolvedValues";
      if truthy resolved then
        inner ← getitem value "value";
        getitem inner "interpretedValue"
      else
        inner ← getitem value "value";
        original ← getitem inner "originalValue";
        if truthy original then
          inner ← getitem value "value";
          getitem inner "originalValue"
        else Ok JNull
  end.

(** ** The state one dispatch runs in

    Three things outlive a single expression: the turn event itself (a
    mutable dictionary handed in by reference), the conversation memory
    kept per session id, and what was printed. *)

Inductive role : Type := Human | Assistant.

Record memory_record : Type := Message { tag : role; content : json }.

#[global] Instance role_eq_dec : EqDecision role.
Proof. solve_decision. Defined.

Record world : Type := World {
  inbound : json;
  turn_memory : gmap string (list memory_record);
  stdout : list string
}.

(** A computation may change the world and then return or raise; what it
    changed before raising stays changed. *)
Definition M (A : Type) : Type := world → result A * world.

#[global] Instance M_ret : MRet M := fun _ a w => (Ok a, w).
#[global] Instance M_bind : MBind M := fun _ _ f m w =>
  match m w with
  | (Ok a, w') => f a w'
  | (Raise e, w') => (Raise e, w')
  end.
#[global] Instance M_throw : MThrow exn M := fun _ e w => (Raise e, w).

Definition lift {A : Type} (r : result A) : M A := fun w => (r, w).

Definition get_inbound : M json := fun w => (Ok (inbound w), w).

Definition put_inbound (e : json) : M unit :=
  fun w => (Ok (), World e (turn_memory w) (stdout w)).

Definition print (line : string) : M unit :=
  fun w => (Ok (), World (inbound w) (turn_memory w) (stdout w ++ [line])%list).

(** *** Names for the session attributes

    [x = intent_request["sessionState"].get("sessionAttributes") or {}]
    binds [x] either to the dictionary that sits inside the turn event or
    to a dictionary made on the spot.  Writing through [x] changes the
    event in the first case only.  The event comes from a JSON parse, so it
    is a tree: no other place in it shares that dictionary. *)

Inductive ref : Type :=
| Shared
| Fresh (v : json).

Definition session_attributes_or_new : M ref :=
  intent_request ← get_inbound;
  session_state ← lift (getitem intent_request "sessionState");
  found ← lift (get session_state "sessionAttributes" JNull);
  mret (if truthy found then Shared else Fresh (dict [])).

Definition deref (r : ref) : M json :=
  match r with
  | Fresh v => mret v
  | Shared =>
      intent_request ← get_inbound;
      session_state ← lift (getitem intent_request "sessionState");
      lift (getitem session_state "sessionAttributes")
  end.

(** The event after [intent_request["sessionState"]["sessionAttributes"][k] = v];
    only a dictionary supports the assignment. *)
Definition store_session_attribute (k : string) (v : json)
    (intent_request : json) : result json :=
  match intent_request with
  | JDict top =>
      match top !! "sessionState" with
      | Some (JDict session_state) =>
          match session_state !! "sessionAttributes" with
          | Some (JDict attrs) =>
              Ok (JDict (<["sessionState" :=
                    JDict (<["sessionAttributes" := JDict (<[k := v]> attrs)]>
                             session_state)]> top))
          | _ => Raise TypeError
          end
      | _ => Raise TypeError
      end
  | _ => Raise TypeError
  end.

(** [r[k] = v] *)
Definition setitem (r : ref) (k : string) (v : json) : M ref :=
  match r with
  | Fresh (JDict d) => mret (Fresh (JDict (<[k := v]> d)))
  | Fresh _ => mthrow TypeError
  | Shared =>
      intent_request ← get_inbound;
      updated ← lift (store_session_attribute k v intent_request);
      put_inbound updated;;
      mret Shared
  end.

(** ** The collaborators of the agent step *)

(** The language model handle: [Bedrock(...)] with its [model_kwargs]. *)
Record Bedrock : Type := { model_id : string; model_kwargs : json }.

(** The handle [invoke_agent] sets up on every call:
    [Bedrock(model_id="anthropic.claude-v2:1", ...)] with
    [model_kwargs = {"max_tokens_to_sample": 350}]. *)
Definition claude_v2 : Bedrock :=
  {| model_id := "anthropic.claude-v2:1";
     model_kwargs := dict [("max_tokens_to_sample", JNum 350)] |}.

Definition session_records (session_id : string) (w : world)
    : list memory_record :=
  default [] (turn_memory w !! session_id).

(** Modelled from the spec: the class [Chat] (chat.py) is not among the
    sources.  Section 4.6 has the adapter "append the human turn to Turn
    Memory for this session" and later "append the summary (tagged as the
    assistant's turn) back into Turn Memory"; section 3 makes the store
    "keyed append-style" and a record "role-tagged message content".  So
    [set_memory] appends one record to the list kept under the session id,
    and constructing a [Chat] records the entry it is given.  The store is
    keyed by text: a session id that is not a string is a [TypeError]. *)
Definition set_memory (entry : memory_record) (session_id : json) : M unit :=
  match session_id with
  | JStr sid =>
      fun w =>
        (Ok (),
         World (inbound w)
               (<[sid := (session_records sid w ++ [entry])%list]>
                  (turn_memory w))
               (stdout w))
  | _ => mthrow TypeError
  end.

(** Modelled from the spec: [Chat(entry, session_id)], see [set_memory].
    The object stands for the session it was opened on. *)
Definition Chat (entry : memory_record) (session_id : json) : M json :=
  set_memory entry session_id;;
  mret session_id.

(** Modelled from the spec: [chat.memory], the records accumulated for the
    session of [chat]. *)
Definition memory (chat : json) : M (list memory_record) :=
  match chat with
  | JStr sid => fun w => (Ok (session_records sid w), w)
  | _ => mthrow TypeError
  end.

(** ** Intent fulfillment functions *)

Definition menu_text : string :=
  "What type of support do you need? Please select one option from below:"
    +:+ nl +:+
  "1. General Support" +:+ nl +:+
  "2. Suicide Prevention" +:+ nl +:+
  "3. Young People" +:+ nl +:+
  "4. LGBTQ+ Support" +:+ nl +:+
  "5. Urgent Help".

Definition general_support : string :=
  "**General Mental Health Support**:" +:+ nl +:+
  "- Samaritans: Call 116 123 (24/7)" +:+ nl +:+
  "- NHS 111: Call 111 (24/7)".

Definition suicide_prevention : string :=
  "**Suicide Prevention**:" +:+ nl +:+
  "- National Suicide Prevention Helpline: Call 0800 689 5652" +:+ nl +:+
  "- Papyrus HOPELINEUK: Call 0800 068 4141".

Definition young_people : string :=
  "**Support for Young People**:" +:+ nl +:+
  "- Childline: Call 0800 1111 (24/7)" +:+ nl +:+
  "- Shout Crisis Text Line: Text 'YM' to 85258".

Definition lgbtq_support : string :=
  "**LGBTQ+ Support**:" +:+ nl +:+
  "- Switchboard: Call 0300 330 0630 (10am-10pm)" +:+ nl +:+
  "- Text 'SHOUT' to 85258 (24/7)".

Definition urgent_help : string :=
  "**Urgent Help**:" +:+ nl +:+
  "- Call 999 for immediate danger" +:+ nl +:+
  "- Visit A&E for emergency mental health support".

Definition not_understood : string :=
  "I didn’t understand that. Please reply with 1, 2, 3, 4, or 5.".

(** The [if]/[elif] chain of [emergency_helpline] on the selection. *)
Definition helpline_message (user_selection : json) : string :=
  if eq_str user_selection "1" then general_support
  else if eq_str user_selection "2" then suicide_prevention
  else if eq_str user_selection "3" then young_people
  else if eq_str user_selection "4" then lgbtq_support
  else if eq_str user_selection "5" then urgent_help
  else not_understood.

(** Handles mental health emergency helpline requests.  Nothing is written
    through [session_attributes], [intent] or [slots] here, so the values
    they name stand for the objects. *)
Definition emergency_helpline : M json :=
  intent_request ← get_inbound;
  session_state ← lift (getitem intent_request "sessionState");
  session_attributes ← lift (get session_state "sessionAttributes" (dict []));
  session_state ← lift (getitem intent_request "sessionState");
  intent ← lift (getitem session_state "intent");
  slots ← lift (get intent "slots" (dict []));
  holder ← lift (get slots "Selection" JNull);
  user_selection ← lift (try_ex holder);
  if negb (truthy user_selection) then
    mret (dict [
      ("sessionState", dict [
        ("dialogAction", dict [("type", JStr "ElicitSlot");
                               ("slotToElicit", JStr "Selection")]);
        ("intent", intent);
        ("sessionAttributes", session_attributes)
      ]);
      ("messages", JList [
        dict [("contentType", JStr "PlainText");
              ("content", JStr menu_text)]
      ])
    ])
  else
    let message := helpline_message user_selection in
    name ← lift (getitem intent "name");
    kept_slots ← lift (getitem intent "slots");
    confirmation ← lift (get intent "confirmationState" (JStr "None"));
    mret (dict [
      ("sessionState", dict [
        ("dialogAction", dict [("type", JStr "Close")]);
        ("intent", dict [
          ("name", name);
          ("slots", kept_slots);
          ("state", JStr "Fulfilled");
          ("confirmationState", confirmation)
        ]);
        ("sessionAttributes", session_attributes)
      ]);
      ("messages", JList [
        dict [("contentType", JStr "PlainText");
              ("content", JStr message)]
      ])
    ]).

Section Handlers.

(** [str(v)] of a value that is not a string; which text Python prints
    for a number or a container plays no part below. *)
Variable repr : json → string.

(** The generation service behind [FSIAgent(llm, memory).run(input=...)]
    and [ConversationChain(llm=llm).predict(input=...)]: text out for a
    prompt in, the agent reading the memory of the session. *)
Variable agent_run : Bedrock → list memory_record → json → string.
Variable predict : Bedrock → string → string.

Definition str (v : json) : string :=
  match v with
  | JStr s => s
  | _ => repr v
  end.

(** Performs dialog management and fulfillment for username
    verification. *)
Definition verify_identity : M json :=
  intent_request ← get_inbound;
  session_state ← lift (getitem intent_request "sessionState");
  intent ← lift (getitem session_state "intent");
  slots ← lift (getitem intent "slots");
  holder ← lift (getitem slots "UserName");
  username ← lift (try_ex holder);
  session_attributes ← session_attributes_or_new;
  session_state ← lift (getitem intent_request "sessionState");
  intent ← lift (getitem session_state "intent");
  let active_contexts := dict [] in
  if truthy username then
    session_attributes ← setitem session_attributes "UserName" username;
    intent_request ← get_inbound;
    stored ← deref session_attributes;
    mret (elicit_intent intent_request stored
            (JStr ("Thank you for confirming your username and PIN, "
                   +:+ str username
                   +:+ ". How are you doing? Is everything going well?")))
  else
    stored ← deref session_attributes;
    mret (elicit_slot stored active_contexts intent (JStr "UserName")
            (JStr "Please provide your username to proceed.")).

(** Invokes the agent with [prompt] input. *)
Definition invoke_agent (prompt session_id : json) : M string :=
  chat ← Chat (Message Human prompt) session_id;
  let llm := claude_v2 in
  history ← memory chat;
  let message := agent_run llm history prompt in
  let formatted_prompt :=
    nl +:+ nl +:+ "Human: "
    +:+ "Summarize the following within 50 words: "
    +:+ message
    +:+ " " +:+ nl +:+ nl +:+ "Assistant:" in
  let ai_response_recap := predict llm formatted_prompt in
  set_memory (Message Assistant (JStr ai_response_recap)) session_id;;
  mret message.

(** Performs dialog management and fulfillment for user utterances that do
    not match defined intents.  The local [output] is bound by the
    guarded block only; reading it unbound is an [UnboundLocalError]. *)
Definition genai_intent : M json :=
  intent_request ← get_inbound;
  session_attributes ← session_attributes_or_new;
  session_id ← lift (getitem intent_request "sessionId");
  source ← lift (getitem intent_request "invocationSource");
  output ←
    (if eq_str source "DialogCodeHook" then
       prompt ← lift (getitem intent_request "inputTranscript");
       output ← invoke_agent prompt session_id;
       print ("FSI Agent response: " +:+ output);;
       mret (Some output)
     else mret None);
  match output with
  | Some output =>
      stored ← deref session_attributes;
      mret (elicit_intent intent_request stored (JStr output))
  | None => mthrow (UnboundLocalError "output")
  end.

(** ** Intents *)

(** Routes the incoming request based on intent.  Each arm of the
    conditional returns; [returned] is what the conditional handed back,
    [None] if control were to fall out of it onto the [raise]. *)
Definition dispatch : M json :=
  intent_request ← get_inbound;
  session_state ← lift (getitem intent_request "sessionState");
  intent ← lift (getitem session_state "intent");
  intent_name ← lift (getitem intent "name");
  returned ←
    (if eq_str intent_name "VerifyIdentity" then
       response ← verify_identity; mret (Some response)
     else if eq_str intent_name "Emergencyhelpline" then
       response ← emergency_helpline; mret (Some response)
     else
       response ← genai_intent; mret (Some response));
  match returned with
  | Some response => mret response
  | None =>
      text ← lift (str_add "Intent with name " intent_name);
      mthrow (Exception (text +:+ " not supported"))
  end.

End Handlers.

(** ** Main handler *)

(** What one Lambda process keeps between invocations: its environment
    variables, the time zone its C library works in (what [time.tzset()]
    last read off [TZ]), the conversation memory and what was printed. *)
Record process : Type := Process {
  environ : gmap string string;
  timezone : option string;
  remembered : gmap string (list memory_record);
  printed : list string
}.

(** Invoked when the user provides an utterance that maps to a Lex bot
    intent: [os.environ["TZ"] = "America/New_York"], [time.tzset()], then
    [dispatch(event)].  Next to the result stand the event object as the
    call left it and the process afterwards. *)
Definition handler repr agent_run predict (event context : json)
    (p : process) : result json * json * process :=
  let environ' := <["TZ" := "America/New_York"]> (environ p) in
  let zone := environ' !! "TZ" in
  let run :=
    dispatch repr agent_run predict (World event (remembered p) (printed p))
  in
  (run.1, inbound run.2,
   Process environ' zone (turn_memory run.2) (stdout run.2)).

(** * The vocabulary of the statements *)

(** ** Reading a directive

    The claims speak of fields of the response; [at_path] follows keys and
    list positions and answers [None] where the response has no such
    field. *)

Inductive step : Type :=
| Key (k : string)
| Index (i : nat).

Definition select (s : step) (v : json) : option json :=
  match s, v with
  | Key k, JDict d => d !! k
  | Index i, JList l => l !! i
  | _, _ => None
  end.

Definition at_path (path : list step) (v : json) : option json :=
  foldl (fun found s => found ≫= select s) (Some v) path.

Definition directive (response : json) : option json :=
  at_path [Key "sessionState"; Key "dialogAction"; Key "type"] response.

Definition slot_to_elicit (response : json) : option json :=
  at_path [Key "sessionState"; Key "dialogAction"; Key "slotToElicit"]
    response.

Definition message_text (response : json) : option json :=
  at_path [Key "messages"; Index 0; Key "content"] response.

Definition attributes_of (response : json) : option json :=
  at_path [Key "sessionState"; Key "sessionAttributes"] response.

(** The response carries exactly one active context, named
    [intentContext], living 86400 seconds and 20 turns. *)
Definition one_intent_context (response : json) : Prop :=
  ∃ context,
    at_path [Key "sessionState"; Key "activeContexts"] response
      = Some (JList [context])
    ∧ at_path [Key "name"] context = Some (JStr "intentContext")
    ∧ at_path [Key "timeToLive"; Key "timeToLiveInSeconds"] context
      = Some (JNum 86400)
    ∧ at_path [Key "timeToLive"; Key "turnsToLive"] context
      = Some (JNum 20).

(** ** Properties of computations

    Two properties of a computation are followed through the code:
    [quiet], it raises no bare [Exception] (the one [dispatch] keeps for an
    unsupported intent), and [keeps_inbound], it leaves the turn event as
    it found it. *)

Definition is_Exception (e : exn) : bool :=
  match e with
  | Exception _ => true
  | _ => false
  end.

Definition quiet_result {A : Type} (r : result A) : Prop :=
  ∀ e, r = Raise e → is_Exception e = false.

Definition quiet {A : Type} (m : M A) : Prop :=
  ∀ w, quiet_result (m w).1.

Definition keeps_inbound {A : Type} (m : M A) : Prop :=
  ∀ w, inbound (m w).2 = inbound w.

(** [keeps_store]: the computation leaves the conversation memory and the
    printed lines as it found them. *)
Definition keeps_store {A : Type} (m : M A) : Prop :=
  ∀ w, turn_memory (m w).2 = turn_memory w ∧ stdout (m w).2 = stdout w.

(** ** What the handlers read off a turn event *)

(** [intent_request["sessionState"]["intent"]["name"]] *)
Definition intent_name_of (intent_request : json) : result json :=
  session_state ← getitem intent_request "sessionState";
  intent ← getitem session_state "intent";
  getitem intent "name".

(** [try_ex(intent.get("slots", {}).get("Selection"))], the way
    [emergency_helpline] reads the selection off the turn event. *)
Definition selection_of (intent_request : json) : result json :=
  session_state ← getitem intent_request "sessionState";
  intent ← getitem session_state "intent";
  slots ← get intent "slots" (dict []);
  holder ← get slots "Selection" JNull;
  try_ex holder.

(** [try_ex(intent_request["sessionState"]["intent"]["slots"]["UserName"])],
    the way [verify_identity] reads the user name off the turn event. *)
Definition username_of (intent_request : json) : result json :=
  session_state ← getitem intent_request "sessionState";
  intent ← getitem session_state "intent";
  slots ← getitem intent "slots";
  holder ← getitem slots "UserName";
  try_ex holder.

(** The session attributes of a turn event are a mapping, when it has
    any. *)
Definition attributes_are_mapping (intent_request : json) : bool :=
  match at_path [Key "sessionState"; Key "sessionAttributes"] intent_request with
  | None | Some JNull | Some (JDict _) => true
  | Some _ => false
  end.

(** The session attributes a turn event came with. *)
Definition received_attributes (intent_request : json) : option json :=
  at_path [Key "sessionState"; Key "sessionAttributes"] intent_request.

(** ** What the handlers are expected to produce *)

(** The table of section 4.7, in the spec's words: identity verification,
    emergency helpline, everything else to the fallback. *)
Definition routing_table repr agent_run predict (intent_name : json)
    : M json :=
  if eq_str intent_name "VerifyIdentity" then verify_identity repr
  else if eq_str intent_name "Emergencyhelpline" then emergency_helpline
  else genai_intent agent_run predict.

Definition acknowledgement (repr : json → string) (username : json) : json :=
  JStr ("Thank you for confirming your username and PIN, "
        +:+ str repr username
        +:+ ". How are you doing? Is everything going well?").

(** The event after [verify_identity] wrote the user name into session
    attributes that sit inside it. *)
Definition with_username (username : json) (top state attrs : gmap string json)
    : json :=
  JDict (<["sessionState" :=
            JDict (<["sessionAttributes" :=
                      JDict (<["UserName" := username]> attrs)]> state)]> top).

(** [intent_request["sessionState"].get("sessionAttributes") or {}], as a
    value: the attributes received when Python counts them as true, a new
    empty mapping otherwise. *)
Definition kept_attributes (intent_request : json) : json :=
  or_else (default JNull (received_attributes intent_request)) (JDict ∅).

(** The prompt the adapter sends to have [message] summarised. *)
Definition summary_prompt (message : string) : string :=
  nl +:+ nl +:+ "Human: "
  +:+ "Summarize the following within 50 words: "
  +:+ message
  +:+ " " +:+ nl +:+ nl +:+ "Assistant:".

(** How many records of a session carry the given tag. *)
Definition tagged (r : role) (records : list memory_record) : nat :=
  length (filter (fun entry => tag entry = r) records).

(** ** Sample turn events *)

(** A slot holder as Lex fills it when the text resolves to itself. *)
Definition filled (text : string) : json :=
  dict [("value", dict [("originalValue", JStr text);
                        ("interpretedValue", JStr text);
                        ("resolvedValues", JList [JStr text])])].

Definition raw_holder : json :=
  dict [("value", dict [("originalValue", JStr "alex");
                        ("interpretedValue", JStr "alex");
                        ("resolvedValues", JList [])])].

(** A holder as Lex sends it for a slot that keeps what the user typed:
    the platform resolved the utterance to the slot value "Yes", and
    [interpretedValue] repeats the raw text. *)
Definition typed_holder : json :=
  dict [("value", dict [("originalValue", JStr "yes please");
                        ("interpretedValue", JStr "yes please");
                        ("resolvedValues", JList [JStr "Yes"])])].

Definition turn_event (intent_name : string) (slots attributes : json)
    (source : string) : json :=
  dict [
    ("sessionId", JStr "s1");
    ("invocationSource", JStr source);
    ("inputTranscript", JStr "hello");
    ("sessionState", dict [
      ("intent", dict [("name", JStr intent_name);
                       ("slots", slots);
                       ("state", JStr "InProgress")]);
      ("sessionAttributes", attributes)
    ])
  ].

Definition fresh_world (intent_request : json) : world :=
  World intent_request ∅ [].

(** Stub collaborators for running the handlers on examples. *)
Definition stub_repr (v : json) : string := "?".
Definition stub_agent (llm : Bedrock) (history : list memory_record)
    (prompt : json) : string := "I am here to listen.".
Definition stub_predict (llm : Bedrock) (prompt : string) : string :=
  "Offers to listen.".

(** The fallback intent on the fulfillment pass of a turn. *)
Definition fulfillment_event : json :=
  turn_event "FallbackIntent" (dict []) (dict []) "FulfillmentCodeHook".

(** The helpline intent with the selection "9": closed all the same. *)
Definition helpline_event : json :=
  turn_event "Emergencyhelpline" (dict [("Selection", filled "9")])
    (dict [("UserName", JStr "alex")]) "DialogCodeHook".

(** The identity intent with the user name "alex" on attributes the session
    already carries. *)
Definition identity_event : json :=
  turn_event "VerifyIdentity" (dict [("UserName", filled "alex")])
    (dict [("visits", JStr "3")]) "DialogCodeHook".

(** The identity intent with a slots map that has no UserName entry. *)
Definition slotless_event : json :=
  turn_event "VerifyIdentity" (dict []) (dict []) "DialogCodeHook".

(** ** Further sample values and shapes *)

(** A value that is no mapping: [None], a truth value, a number, a string
    or a list. *)
Definition not_a_mapping (v : json) : bool :=
  match v with
  | JDict _ => false
  | _ => true
  end.

(** A holder whose raw text is empty and which resolved to nothing. *)
Definition blank_holder : json :=
  dict [("value", dict [("originalValue", JStr EmptyString);
                        ("interpretedValue", JStr EmptyString);
                        ("resolvedValues", JList [])])].

(** The helpline intent as a hand-written event may have it: no slots at
    all. *)
Definition bare_helpline_event : json :=
  dict [("sessionState",
         dict [("intent", dict [("name", JStr "Emergencyhelpline")])])].

(** The texts [emergency_helpline] can answer with. *)
Definition helpline_texts : list string :=
  [menu_text; general_support; suicide_prevention; young_people;
   lgbtq_support; urgent_help; not_understood].


(** A directive as the platform can act on it: one of the three dialog
    actions the handlers use, and a first message of plain text. *)
Definition well_shaped (response : json) : Prop :=
  (∃ kind, directive response = Some (JStr kind)
           ∧ kind ∈ ["ElicitSlot"; "ElicitIntent"; "Close"])
  ∧ at_path [Key "messages"; Index 0; Key "contentType"] response
    = Some (JStr "PlainText")
  ∧ ∃ text, message_text response = Some (JStr text).

(** * Properties *)

(** ** Response builders *)

(** C10: the response of [elicit_intent] does not depend on its
    [intent_request] argument: two runs on any two turn events with the
    same session attributes and message return the same response. *)
Theorem elicit_intent_ignores_request :
  ∀ request1 request2 session_attributes message : json,
    elicit_intent request1 session_attributes message
    = elicit_intent request2 session_attributes message.
Proof. intros. unfold elicit_intent. reflexivity. Qed.

(** C9: for all arguments, the responses built by [elicit_slot] and by
    [delegate] each carry exactly one active context, named
    [intentContext], with [timeToLiveInSeconds] 86400 and [turnsToLive]
    20. *)
Theorem builders_intent_context :
  ∀ session_attributes active_contexts intent slot message : json,
    one_intent_context
      (elicit_slot session_attributes active_contexts intent slot message)
    ∧ one_intent_context
        (delegate session_attributes active_contexts intent message).
Proof.
  intros sa ac intent slot message. split.
  - exists (dict [("name", JStr "intentContext");
                  ("contextAttributes", ac);
                  ("timeToLive", dict [("timeToLiveInSeconds", JNum 86400);
                                       ("turnsToLive", JNum 20)])]).
    repeat split; reflexivity.
  - eexists. split; [reflexivity |]. repeat split; reflexivity.
Qed.

(** ** Slot accessor *)

Lemma getitem_Ok_dict v k x :
  getitem v k = Ok x → ∃ d, v = JDict d ∧ d !! k = Some x.
Proof.
  destruct v as [| | | | |d]; simpl; try discriminate.
  destruct (d !! k) eqn:E; [|discriminate].
  intros [= ->]. eauto.
Qed.

(** What [try_ex] does on a holder that is there. *)
Lemma try_ex_present holder inner :
  getitem holder "value" = Ok inner →
  try_ex holder =
    (resolved ← getitem inner "resolvedValues";
     if truthy resolved then getitem inner "interpretedValue"
     else original ← getitem inner "originalValue";
          if truthy original then getitem inner "originalValue"
          else Ok JNull).
Proof.
  intros H. unfold try_ex.
  destruct holder; try discriminate.
  rewrite H. simpl.
  destruct (getitem inner "resolvedValues") as [resolved|]; [|reflexivity].
  simpl. destruct (truthy resolved); [reflexivity |].
  destruct (getitem inner "originalValue") as [original|]; reflexivity.
Qed.

(** C7: a holder whose resolved-values list is empty and whose raw
    [originalValue] is present (a value Python counts as true: not [None],
    not the empty string) gives that raw value; the absent holder [None]
    gives [None] and raises nothing. *)
Theorem try_ex_raw_or_absent :
  (∀ holder inner original : json,
      getitem holder "value" = Ok inner →
      getitem inner "resolvedValues" = Ok (JList []) →
      getitem inner "originalValue" = Ok original →
      truthy original = true →
      try_ex holder = Ok original)
  ∧ try_ex JNull = Ok JNull.
Proof.
  split; [|reflexivity].
  intros holder inner original Hvalue Hresolved Horiginal Htrue.
  rewrite (try_ex_present _ _ Hvalue), Hresolved. simpl.
  rewrite Horiginal. simpl. rewrite Htrue. reflexivity.
Qed.

Lemma try_ex_raw_or_absent_witness :
  try_ex raw_holder = Ok (JStr "alex") ∧ try_ex JNull = Ok JNull.
Proof.
  split.
  - apply (proj1 try_ex_raw_or_absent raw_holder
             (dict [("originalValue", JStr "alex");
                    ("interpretedValue", JStr "alex");
                    ("resolvedValues", JList [])])
             (JStr "alex")); reflexivity.
  - exact (proj2 try_ex_raw_or_absent).
Defined.

(** C2, as stated, fails: on [typed_holder] the resolved-values list is
    the non-empty [["Yes"]], and [try_ex] returns "yes please", which is
    the raw original value and not the first resolved one. *)
Lemma try_ex_first_resolved_counterexample :
  (inner ← getitem typed_holder "value"; getitem inner "resolvedValues")
    = Ok (JList [JStr "Yes"])
  ∧ (inner ← getitem typed_holder "value"; getitem inner "originalValue")
    = Ok (JStr "yes please")
  ∧ try_ex typed_holder = Ok (JStr "yes please")
  ∧ ¬ (∀ holder inner first rest,
          getitem holder "value" = Ok inner →
          getitem inner "resolvedValues" = Ok (JList (first :: rest)) →
          try_ex holder = Ok first).
Proof.
  repeat split; try reflexivity.
  intros claim.
  specialize (claim typed_holder
                (dict [("originalValue", JStr "yes please");
                       ("interpretedValue", JStr "yes please");
                       ("resolvedValues", JList [JStr "Yes"])])
                (JStr "Yes") [] eq_refl eq_refl).
  vm_compute in claim. discriminate.
Qed.

(** C2, amended: for a holder that is present and whose resolved-values
    list is non-empty, [try_ex] returns the holder's [interpretedValue]
    entry (which the platform may have set to the raw text). *)
Theorem try_ex_interpreted :
  ∀ holder inner first rest interpreted,
    getitem holder "value" = Ok inner →
    getitem inner "resolvedValues" = Ok (JList (first :: rest)) →
    getitem inner "interpretedValue" = Ok interpreted →
    try_ex holder = Ok interpreted.
Proof.
  intros holder inner first rest interpreted Hvalue Hresolved Hinterp.
  rewrite (try_ex_present _ _ Hvalue), Hresolved. simpl. exact Hinterp.
Qed.

Lemma try_ex_interpreted_witness :
  try_ex typed_holder = Ok (JStr "yes please").
Proof.
  apply (try_ex_interpreted typed_holder
           (dict [("originalValue", JStr "yes please");
                  ("interpretedValue", JStr "yes please");
                  ("resolvedValues", JList [JStr "Yes"])])
           (JStr "Yes") [] (JStr "yes please")); reflexivity.
Defined.

(** ** Reasoning about computations *)

Create HintDb handler discriminated.

Lemma quiet_result_Ok {A : Type} (a : A) : quiet_result (Ok a).
Proof. intros e [=]. Qed.

Lemma quiet_result_Raise {A : Type} (e : exn) :
  is_Exception e = false → quiet_result (@Raise A e).
Proof. intros H e' [= <-]. exact H. Qed.

Lemma quiet_result_bind {A B : Type} (r : result A) (f : A → result B) :
  quiet_result r → (∀ a, quiet_result (f a)) → quiet_result (r ≫= f).
Proof.
  intros Hr Hf. destruct r as [a|e]; simpl; [apply Hf |].
  intros e' [= <-]. apply Hr. reflexivity.
Qed.

Lemma quiet_getitem v k : quiet_result (getitem v k).
Proof.
  intros e. destruct v as [| | | | |d]; simpl; try (intros [= <-]; reflexivity).
  destruct (d !! k); intros [= <-]. reflexivity.
Qed.

Lemma quiet_get v k default : quiet_result (get v k default).
Proof.
  intros e. destruct v as [| | | | |d]; simpl; try (intros [= <-]; reflexivity).
  destruct (d !! k); intros [=].
Qed.

Lemma quiet_try_ex value : quiet_result (try_ex value).
Proof.
  assert (∀ v, quiet_result
    (inner ← getitem v "value";
     resolved ← getitem inner "resolvedValues";
     if truthy resolved then
       inner ← getitem v "value"; getitem inner "interpretedValue"
     else
       inner ← getitem v "value";
       original ← getitem inner "originalValue";
       if truthy original then
         inner ← getitem v "value"; getitem inner "originalValue"
       else Ok JNull)) as body.
  { intros v.
    repeat first
      [ apply quiet_getitem
      | apply quiet_result_Ok
      | apply quiet_result_bind; [|intros ?]
      | match goal with |- quiet_result (if ?b then _ else _) => destruct b end ]. }
  destruct value; try apply body. apply quiet_result_Ok.
Qed.

Lemma quiet_store k v e : quiet_result (store_session_attribute k v e).
Proof.
  intros x. unfold store_session_attribute.
  repeat case_match; intros [= <-]; reflexivity.
Qed.

#[global] Hint Resolve quiet_result_Ok quiet_getitem quiet_get quiet_try_ex
  quiet_store : handler.

Lemma quiet_ret {A : Type} (a : A) : quiet (mret a).
Proof. intros w e [=]. Qed.

Lemma quiet_bind {A B : Type} (m : M A) (f : A → M B) :
  quiet m → (∀ a, quiet (f a)) → quiet (m ≫= f).
Proof.
  intros Hm Hf w. unfold mbind, M_bind.
  destruct (m w) as [[a|e] w'] eqn:E.
  - apply Hf.
  - simpl. intros e' [= <-]. apply (Hm w). rewrite E. reflexivity.
Qed.

Lemma quiet_lift {A : Type} (r : result A) : quiet_result r → quiet (lift r).
Proof. intros H w. exact H. Qed.

Lemma quiet_get_inbound : quiet get_inbound.
Proof. intros w e [=]. Qed.

Lemma quiet_put_inbound e : quiet (put_inbound e).
Proof. intros w x [=]. Qed.

Lemma quiet_print line : quiet (print line).
Proof. intros w x [=]. Qed.

Lemma quiet_set_memory entry session_id : quiet (set_memory entry session_id).
Proof.
  intros w e. destruct session_id; simpl; intros [= <-] || intros [=];
    reflexivity.
Qed.

Lemma quiet_memory chat : quiet (memory chat).
Proof.
  intros w e. destruct chat; simpl; intros [= <-] || intros [=]; reflexivity.
Qed.

#[global] Hint Resolve quiet_ret quiet_lift quiet_get_inbound
  quiet_put_inbound quiet_print quiet_set_memory quiet_memory : handler.

(** Walks a computation bind by bind. *)
Ltac quiet_walk :=
  repeat first
    [ progress eauto with handler
    | apply quiet_bind; [|intros ?]
    | apply quiet_lift
    | apply quiet_result_Raise; reflexivity
    | apply quiet_result_bind; [|intros ?]
    | match goal with
      | |- quiet (if ?b then _ else _) => destruct b
      | |- quiet (match ?r with Fresh _ => _ | Shared => _ end) => destruct r
      | |- quiet (match ?v with JDict _ => _ | _ => _ end) => destruct v
      end ].

Lemma quiet_session_attributes_or_new : quiet session_attributes_or_new.
Proof. unfold session_attributes_or_new. quiet_walk. Qed.

Lemma quiet_deref r : quiet (deref r).
Proof. unfold deref. quiet_walk. Qed.

Lemma quiet_setitem r k v : quiet (setitem r k v).
Proof. unfold setitem. quiet_walk. Qed.

Lemma quiet_Chat entry session_id : quiet (Chat entry session_id).
Proof. unfold Chat. quiet_walk. Qed.

#[global] Hint Resolve quiet_session_attributes_or_new quiet_deref
  quiet_setitem quiet_Chat : handler.

Lemma quiet_emergency_helpline : quiet emergency_helpline.
Proof. unfold emergency_helpline. quiet_walk. Qed.

Lemma quiet_verify_identity repr : quiet (verify_identity repr).
Proof. unfold verify_identity. quiet_walk. Qed.

Lemma quiet_invoke_agent agent_run predict prompt session_id :
  quiet (invoke_agent agent_run predict prompt session_id).
Proof. unfold invoke_agent. quiet_walk. Qed.

Lemma quiet_genai_intent agent_run predict :
  quiet (genai_intent agent_run predict).
Proof.
  unfold genai_intent. quiet_walk; auto using quiet_invoke_agent.
  match goal with |- quiet (match ?o with Some _ => _ | None => _ end) =>
    destruct o end; quiet_walk.
Qed.

(** ** Dispatcher *)

Ltac run_M :=
  cbv beta iota zeta delta
    [mbind M_bind mret M_ret mthrow M_throw lift get_inbound put_inbound].

Lemma dispatch_run repr agent_run predict w :
  dispatch repr agent_run predict w =
    match intent_name_of (inbound w) with
    | Ok name => routing_table repr agent_run predict name w
    | Raise e => (Raise e, w)
    end.
Proof.
  unfold dispatch, intent_name_of, routing_table. run_M.
  destruct (getitem (inbound w) "sessionState") as [session_state|];
    [simpl | reflexivity].
  destruct (getitem session_state "intent") as [intent|];
    [simpl | reflexivity].
  destruct (getitem intent "name") as [name|]; [simpl | reflexivity].
  destruct (eq_str name "VerifyIdentity").
  { destruct (verify_identity repr w) as [[r|e] w']; reflexivity. }
  destruct (eq_str name "Emergencyhelpline").
  { destruct (emergency_helpline w) as [[r|e] w']; reflexivity. }
  destruct (genai_intent agent_run predict w) as [[r|e] w']; reflexivity.
Qed.

Lemma quiet_routing_table repr agent_run predict name :
  quiet (routing_table repr agent_run predict name).
Proof.
  unfold routing_table.
  repeat match goal with |- quiet (if ?b then _ else _) => destruct b end;
    auto using quiet_verify_identity, quiet_emergency_helpline,
      quiet_genai_intent.
Qed.

(** C4: [dispatch] routes by the fixed table (VerifyIdentity to
    [verify_identity], Emergencyhelpline to [emergency_helpline], any other
    intent name to [genai_intent]), and for no turn event does it raise the
    "Intent with name ... not supported" exception: the [raise] after the
    conditional is never reached. *)
Theorem dispatch_routes_never_unsupported :
  ∀ repr agent_run predict (w : world),
    (∀ name, intent_name_of (inbound w) = Ok name →
       dispatch repr agent_run predict w
       = (if eq_str name "VerifyIdentity" then verify_identity repr w
          else if eq_str name "Emergencyhelpline" then emergency_helpline w
          else genai_intent agent_run predict w))
    ∧ (∀ msg, (dispatch repr agent_run predict w).1 ≠ Raise (Exception msg)).
Proof.
  intros repr agent_run predict w. split.
  - intros name Hname. rewrite dispatch_run, Hname. unfold routing_table.
    repeat case_match; reflexivity.
  - intros msg Hraise. rewrite dispatch_run in Hraise.
    destruct (intent_name_of (inbound w)) as [name|e] eqn:Hname.
    + apply (quiet_routing_table repr agent_run predict name w) in Hraise.
      discriminate.
    + simpl in Hraise. injection Hraise as ->.
      assert (quiet_result (intent_name_of (inbound w))) as Hquiet.
      { unfold intent_name_of. quiet_walk. }
      apply Hquiet in Hname. discriminate.
Qed.

(** The helpline event takes the helpline route. *)
Lemma dispatch_routes_never_unsupported_witness :
  dispatch stub_repr stub_agent stub_predict (fresh_world helpline_event)
  = emergency_helpline (fresh_world helpline_event).
Proof.
  exact (proj1 (dispatch_routes_never_unsupported stub_repr stub_agent
                  stub_predict (fresh_world helpline_event))
           (JStr "Emergencyhelpline") eq_refl).
Defined.

(** ** Agent invocation adapter *)

Lemma session_records_insert sid records w e o :
  session_records sid (World e (<[sid := records]> (turn_memory w)) o)
  = records.
Proof. unfold session_records. simpl. by rewrite lookup_insert_eq. Qed.

Lemma invoke_agent_run agent_run predict (prompt : json) (sid : string) w :
  let history := (session_records sid w ++ [Message Human prompt])%list in
  let message := agent_run claude_v2 history prompt in
  let recap := predict claude_v2 (summary_prompt message) in
  invoke_agent agent_run predict prompt (JStr sid) w
  = (Ok message,
     World (inbound w)
       (<[sid := (history ++ [Message Assistant (JStr recap)])%list]>
          (turn_memory w))
       (stdout w)).
Proof.
  unfold invoke_agent, Chat, memory, set_memory, summary_prompt. run_M.
  cbn [inbound turn_memory stdout].
  rewrite !session_records_insert, insert_insert_eq. reflexivity.
Qed.

(** C8: with the memory store and the generation service as stubs, for every
    prompt and session id [invoke_agent] returns the full text the agent
    produced, whatever the summary is, and the memory of that session
    gains exactly one record tagged as the assistant's (the summary), after
    the human-tagged record of the prompt; other sessions and the turn
    event are left alone. *)
Theorem invoke_agent_contract :
  ∀ (agent_run : Bedrock → list memory_record → json → string)
    (predict : Bedrock → string → string)
    (prompt session_id : string) (w : world),
    let before := session_records session_id w in
    let reply :=
      agent_run claude_v2 (before ++ [Message Human (JStr prompt)])%list
        (JStr prompt) in
    let recap := predict claude_v2 (summary_prompt reply) in
    let run :=
      invoke_agent agent_run predict (JStr prompt) (JStr session_id) w in
    run.1 = Ok reply
    ∧ session_records session_id run.2
      = (before ++ [Message Human (JStr prompt);
                    Message Assistant (JStr recap)])%list
    ∧ tagged Assistant (session_records session_id run.2)
      = S (tagged Assistant before)
    ∧ (∀ other, other ≠ session_id →
         session_records other run.2 = session_records other w)
    ∧ inbound run.2 = inbound w.
Proof.
  intros agent_run predict prompt sid w before reply recap run.
  subst run. rewrite invoke_agent_run. cbn [fst snd inbound].
  fold before. fold reply. fold recap.
  rewrite session_records_insert, <- app_assoc. simpl.
  repeat split.
  - unfold tagged. rewrite filter_app, length_app. simpl. lia.
  - intros other Hother. unfold session_records. simpl.
    by rewrite lookup_insert_ne.
Qed.

(** The stub run of section 8: prompt "hello", session "s1". *)
Lemma invoke_agent_contract_witness :
  let run :=
    invoke_agent stub_agent stub_predict (JStr "hello") (JStr "s1")
      (fresh_world helpline_event) in
  run.1 = Ok "I am here to listen."
  ∧ tagged Assistant (session_records "s1" run.2) = 1%nat
  ∧ session_records "s2" run.2 = [].
Proof.
  destruct (invoke_agent_contract stub_agent stub_predict "hello" "s1"
              (fresh_world helpline_event))
    as (Hreply & _ & Hcount & Hother & _).
  split; [exact Hreply |]. split; [exact Hcount |].
  apply (Hother "s2"). discriminate.
Defined.

(** ** Language-model fallback handler *)

(** Off the dialog hook nothing binds [output]: the handler raises. *)
Lemma genai_intent_off_hook agent_run predict w session_state session_id source :
  getitem (inbound w) "sessionState" = Ok session_state →
  (∃ d, session_state = JDict d) →
  getitem (inbound w) "sessionId" = Ok session_id →
  getitem (inbound w) "invocationSource" = Ok source →
  eq_str source "DialogCodeHook" = false →
  genai_intent agent_run predict w = (Raise (UnboundLocalError "output"), w).
Proof.
  intros Hstate [d ->] Hid Hsource Hhook.
  unfold genai_intent, session_attributes_or_new. run_M.
  rewrite Hstate. cbn [get]. destruct (d !! "sessionAttributes"); cbn.
  all: rewrite Hid, Hsource, Hhook; reflexivity.
Qed.

(** On the dialog hook the reply of the agent is wrapped into an
    [ElicitIntent] directive. *)
Lemma genai_intent_on_hook agent_run predict w session_state sid prompt :
  getitem (inbound w) "sessionState" = Ok session_state →
  (∃ d, session_state = JDict d) →
  getitem (inbound w) "sessionId" = Ok (JStr sid) →
  getitem (inbound w) "invocationSource" = Ok (JStr "DialogCodeHook") →
  getitem (inbound w) "inputTranscript" = Ok prompt →
  ∃ response w',
    genai_intent agent_run predict w = (Ok response, w')
    ∧ directive response = Some (JStr "ElicitIntent")
    ∧ message_text response
      = Some (JStr (agent_run claude_v2
                      (session_records sid w ++ [Message Human prompt])%list
                      prompt)).
Proof.
  intros Hstate [d ->] Hid Hsource Hprompt.
  unfold genai_intent, session_attributes_or_new. run_M.
  rewrite Hstate. cbn [get].
  destruct (d !! "sessionAttributes") as [found|] eqn:Hfound; cbn [truthy].
  1: destruct (truthy found) eqn:Htrue.
  all: rewrite Hid, Hsource; cbn [eq_str String.eqb Ascii.eqb Bool.eqb];
    rewrite Hprompt, invoke_agent_run; unfold print, deref; run_M;
    cbn [inbound]; rewrite ?Hstate; cbn [getitem]; rewrite ?Hfound;
    eexists _, _; split; [reflexivity |]; split; reflexivity.
Qed.

(** C1 (the code departs from the claim): on [fulfillment_event], whose
    intent is neither VerifyIdentity nor Emergencyhelpline and whose
    invocation source is not "DialogCodeHook", the dispatch returns no
    directive: reading the unbound local [output] raises
    [UnboundLocalError]. *)
Theorem genai_intent_unbound_output :
  ∀ repr agent_run predict memory printed,
    dispatch repr agent_run predict (World fulfillment_event memory printed)
    = (Raise (UnboundLocalError "output"),
       World fulfillment_event memory printed).
Proof.
  intros repr agent_run predict memory printed.
  rewrite dispatch_run.
  change (intent_name_of (inbound (World fulfillment_event memory printed)))
    with (Ok (JStr "FallbackIntent")).
  unfold routing_table.
  change (eq_str (JStr "FallbackIntent") "VerifyIdentity") with false.
  change (eq_str (JStr "FallbackIntent") "Emergencyhelpline") with false.
  cbv iota.
  eapply genai_intent_off_hook; try reflexivity. eexists. reflexivity.
Qed.

(** ** Paths *)

Lemma at_path_none path :
  foldl (fun found s => found ≫= select s) None path = None.
Proof. induction path as [|s path IH]; [reflexivity | exact IH]. Qed.

Lemma at_path_cons s path v :
  at_path (s :: path) v = select s v ≫= at_path path.
Proof.
  unfold at_path. simpl. destruct (select s v) as [x|]; simpl.
  - reflexivity.
  - apply at_path_none.
Qed.

Lemma at_path_key k path d :
  at_path (Key k :: path) (JDict d) = d !! k ≫= at_path path.
Proof. apply at_path_cons. Qed.

Lemma getitem_dict d k : getitem (JDict d) k =
  match d !! k with Some x => Ok x | None => Raise (KeyError k) end.
Proof. reflexivity. Qed.

Lemma get_dict d k fallback :
  get (JDict d) k fallback = Ok (default fallback (d !! k)).
Proof. simpl. destruct (d !! k); reflexivity. Qed.

(** ** Emergency helpline handler *)

Lemma helpline_message_other v :
  (∀ k, k ∈ ["1"; "2"; "3"; "4"; "5"] → v ≠ JStr k) →
  helpline_message v = not_understood.
Proof.
  intros Hother. unfold helpline_message, eq_str.
  destruct v as [| | |t| |]; try reflexivity.
  repeat match goal with
  | |- context [String.eqb t ?k] =>
      destruct (String.eqb_spec t k) as [->|_];
        [exfalso; apply (Hother k); [set_solver | reflexivity] |]
  end.
  reflexivity.
Qed.

Lemma helpline_messages_distinct :
  NoDup [general_support; suicide_prevention; young_people; lgbtq_support;
         urgent_help; not_understood].
Proof.
  repeat (apply NoDup_cons; split;
          [rewrite ?elem_of_cons, elem_of_nil; intros H;
           repeat destruct H as [H|H]; try discriminate; exact H |]).
  apply NoDup_nil_2.
Qed.

Lemma emergency_helpline_run w selection :
  intent_name_of (inbound w) = Ok (JStr "Emergencyhelpline") →
  selection_of (inbound w) = Ok selection →
  ∃ response,
    emergency_helpline w = (Ok response, w)
    ∧ if truthy selection then
        directive response = Some (JStr "Close")
        ∧ at_path [Key "sessionState"; Key "intent"; Key "state"] response
          = Some (JStr "Fulfilled")
        ∧ message_text response = Some (JStr (helpline_message selection))
        ∧ (∃ slots,
             at_path [Key "sessionState"; Key "intent"; Key "slots"]
               (inbound w) = Some slots
             ∧ at_path [Key "sessionState"; Key "intent"; Key "slots"]
                 response = Some slots)
        ∧ at_path [Key "sessionState"; Key "intent"; Key "confirmationState"]
            response
          = Some (default (JStr "None")
                    (at_path [Key "sessionState"; Key "intent";
                              Key "confirmationState"] (inbound w)))
      else
        directive response = Some (JStr "ElicitSlot")
        ∧ slot_to_elicit response = Some (JStr "Selection")
        ∧ message_text response = Some (JStr menu_text)
        ∧ at_path [Key "sessionState"; Key "intent"] response
          = at_path [Key "sessionState"; Key "intent"] (inbound w).
Proof.
  intros Hname Hselection.
  unfold intent_name_of in Hname. unfold selection_of in Hselection.
  destruct (getitem (inbound w) "sessionState") as [session_state|] eqn:Hstate;
    [|discriminate].
  destruct (getitem_Ok_dict _ _ _ Hstate) as (top & Htop & Htop_state).
  cbn [mbind result_bind] in Hname, Hselection.
  destruct (getitem session_state "intent") as [intent|] eqn:Hintent;
    [|discriminate].
  destruct (getitem_Ok_dict _ _ _ Hintent) as (state & -> & Hstate_intent).
  cbn [mbind result_bind] in Hname, Hselection.
  destruct (getitem_Ok_dict _ _ _ Hname) as (fields & -> & Hfields_name).
  rewrite get_dict in Hselection. cbn [mbind result_bind] in Hselection.
  destruct (get (default (dict []) (fields !! "slots")) "Selection" JNull)
    as [holder|] eqn:Hholder; [|discriminate].
  cbn [mbind result_bind] in Hselection.
  unfold emergency_helpline. run_M.
  rewrite Hstate, get_dict, Hintent, get_dict, Hholder, Hselection.
  cbn [mbind result_bind].
  assert (∀ path, at_path (Key "sessionState" :: Key "intent" :: path)
                    (inbound w) = at_path path (JDict fields)) as Hpath.
  { intros path. rewrite Htop, at_path_key, Htop_state. cbn [mbind option_bind].
    rewrite at_path_key, Hstate_intent. reflexivity. }
  destruct (truthy selection) eqn:Htrue; cbn [negb].
  - destruct (fields !! "slots") as [slots|] eqn:Hslots.
    2: { injection Hholder as <-. injection Hselection as <-. discriminate. }
    rewrite Hname, getitem_dict, Hslots, get_dict.
    eexists. split; [reflexivity |].
    repeat split.
    + exists slots. rewrite Hpath, at_path_key, Hslots. split; reflexivity.
    + rewrite Hpath, at_path_key.
      destruct (fields !! "confirmationState"); reflexivity.
  - eexists. split; [reflexivity |]. repeat split.
    rewrite Hpath. reflexivity.
Qed.

(** The answers of [emergency_helpline], the texts under their names. *)
Lemma emergency_helpline_answers :
  (∀ repr agent_run predict (w : world) (selection : json),
      intent_name_of (inbound w) = Ok (JStr "Emergencyhelpline") →
      selection_of (inbound w) = Ok selection →
      ∃ response,
        dispatch repr agent_run predict w = (Ok response, w)
        ∧ if truthy selection then
            directive response = Some (JStr "Close")
            ∧ at_path [Key "sessionState"; Key "intent"; Key "state"] response
              = Some (JStr "Fulfilled")
            ∧ message_text response
              = Some (JStr (helpline_message selection))
            ∧ (∃ slots,
                 at_path [Key "sessionState"; Key "intent"; Key "slots"]
                   (inbound w) = Some slots
                 ∧ at_path [Key "sessionState"; Key "intent"; Key "slots"]
                     response = Some slots)
            ∧ at_path [Key "sessionState"; Key "intent";
                       Key "confirmationState"] response
              = Some (default (JStr "None")
                        (at_path [Key "sessionState"; Key "intent";
                                  Key "confirmationState"] (inbound w)))
          else
            directive response = Some (JStr "ElicitSlot")
            ∧ slot_to_elicit response = Some (JStr "Selection")
            ∧ message_text response = Some (JStr menu_text)
            ∧ at_path [Key "sessionState"; Key "intent"] response
              = at_path [Key "sessionState"; Key "intent"] (inbound w))
  ∧ helpline_message (JStr "1") = general_support
  ∧ helpline_message (JStr "2") = suicide_prevention
  ∧ helpline_message (JStr "3") = young_people
  ∧ helpline_message (JStr "4") = lgbtq_support
  ∧ helpline_message (JStr "5") = urgent_help
  ∧ NoDup [general_support; suicide_prevention; young_people; lgbtq_support;
           urgent_help; not_understood]
  ∧ (∀ v, (∀ k, k ∈ ["1"; "2"; "3"; "4"; "5"] → v ≠ JStr k) →
       helpline_message v = not_understood).
Proof.
  split; [| repeat split;
            auto using helpline_messages_distinct, helpline_message_other].
  intros repr agent_run predict w selection Hname Hselection.
  rewrite dispatch_run, Hname. unfold routing_table.
  change (eq_str (JStr "Emergencyhelpline") "VerifyIdentity") with false.
  change (eq_str (JStr "Emergencyhelpline") "Emergencyhelpline") with true.
  cbv iota. apply emergency_helpline_run; assumption.
Qed.

(** C5: a turn event routed to [emergency_helpline] whose Selection slot
    yields no value ([None] or an empty one, Python's [not user_selection])
    is answered by [ElicitSlot] for "Selection" with the menu of five
    options; one whose Selection slot yields a value is answered by [Close]
    with the intent state "Fulfilled", the slots of the inbound intent and
    its confirmation state ("None" when the event has none), and the
    message chosen by the selection: "1" to "5" give five distinct fixed
    texts, anything else the not-understood text.  The texts are written
    out: [break] is the line feed, and each text is the one of the
    source, line by line. *)
Theorem emergency_helpline_directive :
  let break := String (ascii_of_nat 10) EmptyString in
  let menu :=
    "What type of support do you need? Please select one option from below:"
    +:+ break +:+ "1. General Support"
    +:+ break +:+ "2. Suicide Prevention"
    +:+ break +:+ "3. Young People"
    +:+ break +:+ "4. LGBTQ+ Support"
    +:+ break +:+ "5. Urgent Help" in
  let general :=
    "**General Mental Health Support**:"
    +:+ break +:+ "- Samaritans: Call 116 123 (24/7)"
    +:+ break +:+ "- NHS 111: Call 111 (24/7)" in
  let suicide :=
    "**Suicide Prevention**:"
    +:+ break +:+ "- National Suicide Prevention Helpline: Call 0800 689 5652"
    +:+ break +:+ "- Papyrus HOPELINEUK: Call 0800 068 4141" in
  let young :=
    "**Support for Young People**:"
    +:+ break +:+ "- Childline: Call 0800 1111 (24/7)"
    +:+ break +:+ "- Shout Crisis Text Line: Text 'YM' to 85258" in
  let lgbtq :=
    "**LGBTQ+ Support**:"
    +:+ break +:+ "- Switchboard: Call 0300 330 0630 (10am-10pm)"
    +:+ break +:+ "- Text 'SHOUT' to 85258 (24/7)" in
  let urgent :=
    "**Urgent Help**:"
    +:+ break +:+ "- Call 999 for immediate danger"
    +:+ break +:+ "- Visit A&E for emergency mental health support" in
  let unclear :=
    "I didn’t understand that. Please reply with 1, 2, 3, 4, or 5." in
  (∀ repr agent_run predict (w : world) (selection : json),
      intent_name_of (inbound w) = Ok (JStr "Emergencyhelpline") →
      selection_of (inbound w) = Ok selection →
      ∃ response,
        dispatch repr agent_run predict w = (Ok response, w)
        ∧ if truthy selection then
            directive response = Some (JStr "Close")
            ∧ at_path [Key "sessionState"; Key "intent"; Key "state"] response
              = Some (JStr "Fulfilled")
            ∧ message_text response
              = Some (JStr (helpline_message selection))
            ∧ (∃ slots,
                 at_path [Key "sessionState"; Key "intent"; Key "slots"]
                   (inbound w) = Some slots
                 ∧ at_path [Key "sessionState"; Key "intent"; Key "slots"]
                     response = Some slots)
            ∧ at_path [Key "sessionState"; Key "intent";
                       Key "confirmationState"] response
              = Some (default (JStr "None")
                        (at_path [Key "sessionState"; Key "intent";
                                  Key "confirmationState"] (inbound w)))
          else
            directive response = Some (JStr "ElicitSlot")
            ∧ slot_to_elicit response = Some (JStr "Selection")
            ∧ message_text response = Some (JStr menu)
            ∧ at_path [Key "sessionState"; Key "intent"] response
              = at_path [Key "sessionState"; Key "intent"] (inbound w))
  ∧ helpline_message (JStr "1") = general
  ∧ helpline_message (JStr "2") = suicide
  ∧ helpline_message (JStr "3") = young
  ∧ helpline_message (JStr "4") = lgbtq
  ∧ helpline_message (JStr "5") = urgent
  ∧ NoDup [general; suicide; young; lgbtq; urgent; unclear]
  ∧ (∀ v, (∀ k, k ∈ ["1"; "2"; "3"; "4"; "5"] → v ≠ JStr k) →
       helpline_message v = unclear).
Proof. cbv zeta. exact emergency_helpline_answers. Qed.

Lemma emergency_helpline_directive_witness :
  ∃ response,
    dispatch stub_repr stub_agent stub_predict (fresh_world helpline_event)
    = (Ok response, fresh_world helpline_event)
    ∧ directive response = Some (JStr "Close")
    ∧ message_text response
      = Some (JStr (helpline_message (JStr "9")))
    ∧ helpline_message (JStr "9")
      = "I didn’t understand that. Please reply with 1, 2, 3, 4, or 5.".
Proof.
  pose proof emergency_helpline_directive as Hdirective. cbv zeta in Hdirective.
  destruct Hdirective as (Hanswer & _ & _ & _ & _ & _ & _ & Hother).
  destruct (Hanswer stub_repr stub_agent stub_predict
              (fresh_world helpline_event) (JStr "9") eq_refl eq_refl)
    as (response & Hrun & Hshape).
  exists response. split; [exact Hrun |].
  split; [exact (proj1 Hshape) |].
  split; [exact (proj1 (proj2 (proj2 Hshape))) |].
  apply Hother. intros k Hk [= <-].
  repeat (apply elem_of_cons in Hk as [Hk | Hk]; [discriminate |]).
  by apply elem_of_nil in Hk.
Defined.

(** ** Identity verification handler *)

(** What [verify_identity] does on an event whose UserName slot can be
    read. *)
Lemma verify_identity_run repr w top state username :
  inbound w = JDict top →
  top !! "sessionState" = Some (JDict state) →
  username_of (inbound w) = Ok username →
  ∃ fields, state !! "intent" = Some (JDict fields) ∧
  verify_identity repr w =
    if truthy username then
      let found := default JNull (state !! "sessionAttributes") in
      if truthy found then
        match found with
        | JDict attrs =>
            (Ok (elicit_intent (with_username username top state attrs)
                   (JDict (<["UserName" := username]> attrs))
                   (acknowledgement repr username)),
             World (with_username username top state attrs)
                   (turn_memory w) (stdout w))
        | _ => (Raise TypeError, w)
        end
      else
        (Ok (elicit_intent (inbound w)
               (JDict (<["UserName" := username]> ∅))
               (acknowledgement repr username)), w)
    else
      (Ok (elicit_slot
             (or_else (default JNull (state !! "sessionAttributes")) (dict []))
             (dict []) (JDict fields) (JStr "UserName")
             (JStr "Please provide your username to proceed.")), w).
Proof.
  intros Htop Hstate Husername. unfold username_of in Husername.
  rewrite Htop in Husername. rewrite getitem_dict, Hstate in Husername.
  cbn [mbind result_bind] in Husername.
  destruct (getitem (JDict state) "intent") as [intent|] eqn:Hintent;
    [|discriminate].
  destruct (getitem_Ok_dict _ _ _ Hintent) as (state' & [= <-] & Hstate_intent).
  cbn [mbind result_bind] in Husername.
  destruct (getitem intent "slots") as [slots|] eqn:Hslots; [|discriminate].
  destruct (getitem_Ok_dict _ _ _ Hslots) as (fields & -> & Hfields_slots).
  cbn [mbind result_bind] in Husername.
  destruct (getitem slots "UserName") as [holder|] eqn:Hholder; [|discriminate].
  cbn [mbind result_bind] in Husername.
  exists fields. split; [exact Hstate_intent |].
  unfold verify_identity, session_attributes_or_new, setitem, deref. run_M.
  rewrite Htop, getitem_dict, Hstate, Hintent, Hslots, Hholder, Husername.
  rewrite get_dict.
  unfold or_else, acknowledgement. cbv zeta.
  destruct (truthy username);
    destruct (truthy (default JNull (state !! "sessionAttributes"))) eqn:Htrue.
  all: try reflexivity.
  - destruct (state !! "sessionAttributes") as [found|] eqn:Hfound;
      [|discriminate].
    cbn [default] in *. unfold store_session_attribute.
    rewrite Htop, Hstate, Hfound.
    destruct found; try reflexivity.
    cbn [inbound]. unfold with_username.
    rewrite getitem_dict, lookup_insert_eq, getitem_dict, lookup_insert_eq.
    reflexivity.
  - destruct (state !! "sessionAttributes") as [found|] eqn:Hfound;
      [|discriminate].
    cbn [inbound]. rewrite Htop, getitem_dict, Hstate, getitem_dict, Hfound.
    reflexivity.
Qed.

Lemma intent_name_event e name :
  intent_name_of e = Ok name →
  ∃ top state fields,
    e = JDict top ∧ top !! "sessionState" = Some (JDict state)
    ∧ state !! "intent" = Some (JDict fields) ∧ fields !! "name" = Some name.
Proof.
  unfold intent_name_of. intros H.
  destruct (getitem e "sessionState") as [session_state|] eqn:Hstate;
    [|discriminate].
  cbn [mbind result_bind] in H.
  destruct (getitem session_state "intent") as [intent|] eqn:Hintent;
    [|discriminate].
  cbn [mbind result_bind] in H.
  destruct (getitem_Ok_dict _ _ _ Hstate) as (top & -> & Htop).
  destruct (getitem_Ok_dict _ _ _ Hintent) as (state & -> & Hfields).
  destruct (getitem_Ok_dict _ _ _ H) as (fields & -> & Hname).
  eauto 10.
Qed.

(** C6: a turn event routed to [verify_identity] whose UserName slot yields
    a value (one Python counts as true) is answered by [ElicitIntent], and
    the session attributes of the response hold that value under
    "UserName"; one whose UserName slot yields no value is answered by
    [ElicitSlot] with [slotToElicit] "UserName" and an empty map of
    active-context attributes. *)
Theorem verify_identity_directive :
  ∀ repr agent_run predict (w : world) (username : json),
    intent_name_of (inbound w) = Ok (JStr "VerifyIdentity") →
    username_of (inbound w) = Ok username →
    if truthy username then
      attributes_are_mapping (inbound w) = true →
      ∃ response w',
        dispatch repr agent_run predict w = (Ok response, w')
        ∧ directive response = Some (JStr "ElicitIntent")
        ∧ at_path [Key "sessionState"; Key "sessionAttributes";
                   Key "UserName"] response = Some username
        ∧ message_text response = Some (acknowledgement repr username)
    else
      ∃ response,
        dispatch repr agent_run predict w = (Ok response, w)
        ∧ directive response = Some (JStr "ElicitSlot")
        ∧ slot_to_elicit response = Some (JStr "UserName")
        ∧ at_path [Key "sessionState"; Key "activeContexts"; Index 0;
                   Key "contextAttributes"] response = Some (JDict ∅).
Proof.
  intros repr agent_run predict w username Hname Husername.
  rewrite dispatch_run, Hname. unfold routing_table.
  change (eq_str (JStr "VerifyIdentity") "VerifyIdentity") with true.
  cbv iota.
  destruct (intent_name_event _ _ Hname)
    as (top & state & fields & Htop & Hstate & _ & _).
  destruct (verify_identity_run repr w top state username Htop Hstate Husername)
    as (fields' & _ & ->).
  destruct (truthy username).
  - intros Hmapping. unfold attributes_are_mapping in Hmapping.
    rewrite Htop, at_path_key, Hstate in Hmapping.
    cbn [mbind option_bind] in Hmapping. rewrite at_path_key in Hmapping.
    cbv zeta.
    destruct (state !! "sessionAttributes") as [found|];
      cbn [from_option id truthy].
    2: { eexists _, _. split; [reflexivity |]. repeat split. }
    cbn [mbind option_bind] in Hmapping.
    destruct found as [| | | | |attrs]; cbn [truthy]; try discriminate.
    1: { eexists _, _. split; [reflexivity |]. repeat split. }
    all: try match goal with
         | |- context [if ?c then _ else _] => destruct c eqn:Htrue
         end; try discriminate.
    all: try (eexists _, _; split; [reflexivity |]; repeat split; fail).
    eexists _, _. split; [reflexivity |]. repeat split.
    change (at_path _ _)
      with ((<["UserName" := username]> attrs : gmap string json)
              !! "UserName").
    apply lookup_insert_eq.
  - eexists. split; [reflexivity |]. repeat split.
Qed.

Lemma verify_identity_directive_witness :
  ∃ response w',
    dispatch stub_repr stub_agent stub_predict (fresh_world identity_event)
    = (Ok response, w')
    ∧ directive response = Some (JStr "ElicitIntent")
    ∧ at_path [Key "sessionState"; Key "sessionAttributes"; Key "UserName"]
        response = Some (JStr "alex").
Proof.
  destruct (verify_identity_directive stub_repr stub_agent stub_predict
              (fresh_world identity_event) (JStr "alex")
              eq_refl eq_refl eq_refl) as (response & w' & Hrun & Hkind & Hname & _).
  exists response, w'. repeat split; assumption.
Defined.

(** ** What a dispatch does to the turn event *)

Lemma keeps_ret {A : Type} (a : A) : keeps_inbound (mret a).
Proof. intros w. reflexivity. Qed.

Lemma keeps_bind {A B : Type} (m : M A) (f : A → M B) :
  keeps_inbound m → (∀ a, keeps_inbound (f a)) → keeps_inbound (m ≫= f).
Proof.
  intros Hm Hf w. unfold mbind, M_bind. specialize (Hm w).
  destruct (m w) as [[a|e] w']; simpl in *.
  - rewrite Hf. exact Hm.
  - exact Hm.
Qed.

Lemma keeps_lift {A : Type} (r : result A) : keeps_inbound (lift r).
Proof. intros w. reflexivity. Qed.

Lemma keeps_throw {A : Type} (e : exn) : keeps_inbound (@mthrow _ M _ A e).
Proof. intros w. reflexivity. Qed.

Lemma keeps_get_inbound : keeps_inbound get_inbound.
Proof. intros w. reflexivity. Qed.

Lemma keeps_print line : keeps_inbound (print line).
Proof. intros w. reflexivity. Qed.

Lemma keeps_set_memory entry session_id :
  keeps_inbound (set_memory entry session_id).
Proof. intros w. destruct session_id; reflexivity. Qed.

Lemma keeps_memory chat : keeps_inbound (memory chat).
Proof. intros w. destruct chat; reflexivity. Qed.

#[global] Hint Resolve keeps_ret keeps_lift keeps_throw keeps_get_inbound
  keeps_print keeps_set_memory keeps_memory : handler.

Ltac keeps_walk :=
  repeat first
    [ progress eauto with handler
    | apply keeps_bind; [|intros ?]
    | match goal with
      | |- keeps_inbound (if ?b then _ else _) => destruct b
      | |- keeps_inbound (match ?r with Fresh _ => _ | Shared => _ end) =>
          destruct r
      | |- keeps_inbound (match ?o with Some _ => _ | None => _ end) =>
          destruct o
      end ].

Lemma keeps_session_attributes_or_new : keeps_inbound session_attributes_or_new.
Proof. unfold session_attributes_or_new. keeps_walk. Qed.

Lemma keeps_deref r : keeps_inbound (deref r).
Proof. unfold deref. keeps_walk. Qed.

Lemma keeps_Chat entry session_id : keeps_inbound (Chat entry session_id).
Proof. unfold Chat. keeps_walk. Qed.

#[global] Hint Resolve keeps_session_attributes_or_new keeps_deref keeps_Chat
  : handler.

Lemma keeps_invoke_agent agent_run predict prompt session_id :
  keeps_inbound (invoke_agent agent_run predict prompt session_id).
Proof. unfold invoke_agent. keeps_walk. Qed.

Lemma keeps_emergency_helpline : keeps_inbound emergency_helpline.
Proof. unfold emergency_helpline. keeps_walk. Qed.

Lemma keeps_genai_intent agent_run predict :
  keeps_inbound (genai_intent agent_run predict).
Proof. unfold genai_intent. keeps_walk; auto using keeps_invoke_agent. Qed.

Lemma username_of_event e username :
  username_of e = Ok username →
  ∃ top state, e = JDict top ∧ top !! "sessionState" = Some (JDict state).
Proof.
  unfold username_of. intros H.
  destruct (getitem e "sessionState") as [session_state|] eqn:Hstate;
    [|discriminate].
  cbn [mbind result_bind] in H.
  destruct (getitem session_state "intent") as [intent|] eqn:Hintent;
    [|discriminate].
  destruct (getitem_Ok_dict _ _ _ Hstate) as (top & -> & Htop).
  destruct (getitem_Ok_dict _ _ _ Hintent) as (state & -> & _).
  eauto.
Qed.

(** When the user name cannot be read, [verify_identity] raises before it
    has touched anything. *)
Lemma verify_identity_fails repr w e :
  username_of (inbound w) = Raise e → verify_identity repr w = (Raise e, w).
Proof.
  unfold username_of, verify_identity. intros H. run_M.
  repeat match goal with
  | |- match ?r with Ok _ => _ | Raise _ => _ end = _ =>
      destruct r; cbn [mbind result_bind] in H;
        [| injection H as ->; reflexivity]
  end.
  discriminate.
Qed.

Lemma received_attributes_event w top state :
  inbound w = JDict top → top !! "sessionState" = Some (JDict state) →
  received_attributes (inbound w) = state !! "sessionAttributes".
Proof.
  intros -> Hstate. unfold received_attributes.
  rewrite at_path_key, Hstate. cbn [mbind option_bind].
  rewrite at_path_key. destruct (state !! "sessionAttributes"); reflexivity.
Qed.

(** [verify_identity] subscripts the slots map: an event without a UserName
    entry (Lex sends the entry, null while the slot is unfilled) ends in a
    [KeyError], where [emergency_helpline] would ask for the slot. *)
Lemma verify_identity_missing_slot repr :
  verify_identity repr (fresh_world slotless_event)
  = (Raise (KeyError "UserName"), fresh_world slotless_event).
Proof. apply verify_identity_fails. reflexivity. Qed.

Lemma verify_identity_inbound repr w :
  inbound (verify_identity repr w).2 = inbound w
  ∨ ∃ username top state attrs,
      username_of (inbound w) = Ok username ∧ truthy username = true
      ∧ inbound w = JDict top ∧ top !! "sessionState" = Some (JDict state)
      ∧ state !! "sessionAttributes" = Some (JDict attrs) ∧ size attrs ≠ 0%nat
      ∧ inbound (verify_identity repr w).2
        = with_username username top state attrs.
Proof.
  destruct (username_of (inbound w)) as [username|e] eqn:Husername.
  2: { left. by rewrite (verify_identity_fails _ _ _ Husername). }
  destruct (username_of_event _ _ Husername) as (top & state & Htop & Hstate).
  destruct (verify_identity_run repr w top state username Htop Hstate Husername)
    as (fields & _ & Hrun).
  rewrite Hrun. cbv zeta.
  destruct (truthy username) eqn:Htrue; [|by left].
  destruct (state !! "sessionAttributes") as [found|] eqn:Hfound;
    cbn [from_option id truthy]; [|by left].
  destruct (truthy found) eqn:Hfound_true; [|by left].
  destruct found as [| | | | |attrs]; try by left.
  right. exists username, top, state, attrs.
  repeat split; try assumption.
  cbn [truthy] in Hfound_true. intros Hsize. rewrite Hsize in Hfound_true.
  discriminate.
Qed.

Lemma kept_attributes_event w top state :
  inbound w = JDict top → top !! "sessionState" = Some (JDict state) →
  kept_attributes (inbound w)
  = or_else (default JNull (state !! "sessionAttributes")) (JDict ∅).
Proof.
  intros Htop Hstate. unfold kept_attributes.
  by rewrite (received_attributes_event _ _ _ Htop Hstate).
Qed.

(** In the one case where the event carries a non-empty mapping and the slot
    yields a user name, the store lands in the event. *)
Lemma verify_identity_stores repr w username top state attrs :
  username_of (inbound w) = Ok username → truthy username = true →
  inbound w = JDict top → top !! "sessionState" = Some (JDict state) →
  state !! "sessionAttributes" = Some (JDict attrs) → size attrs ≠ 0%nat →
  verify_identity repr w
  = (Ok (elicit_intent (with_username username top state attrs)
           (JDict (<["UserName" := username]> attrs))
           (acknowledgement repr username)),
     World (with_username username top state attrs)
       (turn_memory w) (stdout w)).
Proof.
  intros Husername Htrue Htop Hstate Hattrs Hsize.
  destruct (verify_identity_run repr w top state username Htop Hstate Husername)
    as (fields & _ & ->).
  rewrite Htrue, Hattrs. cbv zeta. cbn [from_option id truthy].
  destruct (size attrs); [congruence | reflexivity].
Qed.

(** The session attributes [verify_identity] sends back: those kept, with
    the user name of the slot stored in them when there is one. *)
Lemma verify_identity_sends repr w response :
  (verify_identity repr w).1 = Ok response →
  ∃ username,
    username_of (inbound w) = Ok username
    ∧ if truthy username then
        ∃ attrs, kept_attributes (inbound w) = JDict attrs
                 ∧ attributes_of response
                   = Some (JDict (<["UserName" := username]> attrs))
      else attributes_of response = Some (kept_attributes (inbound w)).
Proof.
  destruct (username_of (inbound w)) as [username|e] eqn:Husername.
  2: { by rewrite (verify_identity_fails _ _ _ Husername). }
  destruct (username_of_event _ _ Husername) as (top & state & Htop & Hstate).
  destruct (verify_identity_run repr w top state username Htop Hstate Husername)
    as (fields & _ & Hrun).
  rewrite Hrun, (kept_attributes_event _ _ _ Htop Hstate). cbv zeta.
  unfold or_else. intros Hresponse. exists username. split; [reflexivity |].
  destruct (truthy username);
    destruct (truthy (default JNull (state !! "sessionAttributes"))) eqn:Htrue.
  - destruct (state !! "sessionAttributes") as [found|]; [|discriminate].
    cbn [from_option id] in *.
    destruct found as [| | | | |attrs]; try discriminate.
    injection Hresponse as <-. exists attrs. by split.
  - injection Hresponse as <-. exists ∅. by split.
  - by injection Hresponse as <-.
  - by injection Hresponse as <-.
Qed.

Lemma emergency_helpline_sends w response :
  (emergency_helpline w).1 = Ok response →
  attributes_of response
  = Some (default (JDict ∅) (received_attributes (inbound w))).
Proof.
  unfold emergency_helpline. run_M.
  destruct (getitem (inbound w) "sessionState") as [session_state|] eqn:Hstate;
    [|discriminate].
  destruct (getitem_Ok_dict _ _ _ Hstate) as (top & Htop & Htop_state).
  destruct (get session_state "sessionAttributes" (dict [])) as [sent|] eqn:Hget;
    [|discriminate].
  assert (∃ state, session_state = JDict state) as [state ->].
  { destruct session_state; try discriminate. eauto. }
  rewrite get_dict in Hget. injection Hget as <-.
  rewrite (received_attributes_event _ _ _ Htop Htop_state).
  intros Hrun.
  repeat (match type of Hrun with
          | context [match ?r with Ok _ => _ | Raise _ => _ end] => destruct r
          | context [if ?c then _ else _] => destruct c
          end; cbv beta iota in Hrun; cbn [fst] in Hrun; try discriminate).
  all: by injection Hrun as <-.
Qed.

Lemma genai_intent_sends agent_run predict w response :
  (genai_intent agent_run predict w).1 = Ok response →
  attributes_of response = Some (kept_attributes (inbound w)).
Proof.
  unfold genai_intent, session_attributes_or_new. run_M.
  destruct (getitem (inbound w) "sessionState") as [session_state|] eqn:Hstate;
    [|discriminate].
  destruct (getitem_Ok_dict _ _ _ Hstate) as (top & Htop & Htop_state).
  destruct session_state as [| | | | |state]; try discriminate.
  rewrite get_dict, (kept_attributes_event _ _ _ Htop Htop_state).
  unfold or_else.
  destruct (truthy (default JNull (state !! "sessionAttributes"))) eqn:Htrue.
  all: destruct (getitem (inbound w) "sessionId") as [session_id|];
    [|discriminate].
  all: destruct (getitem (inbound w) "invocationSource") as [source|];
    [|discriminate].
  all: destruct (eq_str source "DialogCodeHook"); [|discriminate].
  all: destruct (getitem (inbound w) "inputTranscript") as [prompt|];
    [|discriminate].
  all: pose proof (keeps_invoke_agent agent_run predict prompt session_id w)
    as Hkeep.
  all: destruct (invoke_agent agent_run predict prompt session_id w)
    as [[output|e] w1]; [|discriminate].
  all: cbn [snd] in Hkeep; unfold print, deref; run_M; cbn [inbound fst].
  - rewrite Hkeep, Hstate, getitem_dict.
    destruct (state !! "sessionAttributes") as [found|]; [|discriminate].
    by intros [= <-].
  - by intros [= <-].
Qed.

Lemma eq_str_true v s : eq_str v s = true → v = JStr s.
Proof.
  destruct v; try discriminate. simpl. intros H.
  apply String.eqb_eq in H. by subst.
Qed.

(** C3, as stated, fails: dispatching [identity_event], which carries the
    session attributes [{"visits": "3"}], leaves the inbound event itself
    with "UserName" stored in those attributes. *)
Lemma dispatch_alters_event_counterexample :
  let after :=
    (dispatch stub_repr stub_agent stub_predict (fresh_world identity_event)).2
  in
  received_attributes identity_event = Some (dict [("visits", JStr "3")])
  ∧ received_attributes (inbound after)
    = Some (dict [("visits", JStr "3"); ("UserName", JStr "alex")])
  ∧ inbound after ≠ identity_event.
Proof.
  cbv zeta. split; [reflexivity |]. split; [vm_compute; reflexivity |].
  intros Hsame.
  apply (f_equal (at_path [Key "sessionState"; Key "sessionAttributes";
                           Key "UserName"])) in Hsame.
  vm_compute in Hsame. discriminate.
Qed.

(** C3, amended: one dispatch leaves the inbound turn event as it was,
    except in one case.  When the event is routed to [verify_identity], its
    UserName slot yields a value and it carries a non-empty
    session-attributes mapping, the handler stores that value under
    "UserName" in the mapping inside the event: afterwards the event is the
    one received with that one entry set, and nothing else of it has
    changed.  In every other case, and always on the routes of
    [emergency_helpline] and [genai_intent], the event afterwards is the
    event received.  The session attributes of a returned directive are the
    ones received: on the [verify_identity] route those kept (a new empty
    mapping where none or an empty one came) with the slot's user name
    stored under "UserName" when the slot yields one, on the
    [emergency_helpline] route the value received (an empty mapping where
    the event has no such entry), and on the [genai_intent] route those
    kept. *)
Theorem dispatch_frame :
  ∀ repr agent_run predict (w : world),
    let run := dispatch repr agent_run predict w in
    (∀ username top state attrs,
        intent_name_of (inbound w) = Ok (JStr "VerifyIdentity") →
        username_of (inbound w) = Ok username → truthy username = true →
        inbound w = JDict top → top !! "sessionState" = Some (JDict state) →
        state !! "sessionAttributes" = Some (JDict attrs) →
        size attrs ≠ 0%nat →
        inbound run.2
        = JDict (<["sessionState" :=
                    JDict (<["sessionAttributes" :=
                              JDict (<["UserName" := username]> attrs)]>
                             state)]> top)
        ∧ at_path [Key "sessionState"; Key "sessionAttributes";
                   Key "UserName"] (inbound run.2) = Some username)
    ∧ (inbound run.2 = inbound w
       ∨ ∃ username top state attrs,
           intent_name_of (inbound w) = Ok (JStr "VerifyIdentity")
           ∧ username_of (inbound w) = Ok username ∧ truthy username = true
           ∧ inbound w = JDict top
           ∧ top !! "sessionState" = Some (JDict state)
           ∧ state !! "sessionAttributes" = Some (JDict attrs)
           ∧ size attrs ≠ 0%nat
           ∧ inbound run.2 = with_username username top state attrs)
    ∧ (∀ name response,
         intent_name_of (inbound w) = Ok name →
         run.1 = Ok response →
         if eq_str name "VerifyIdentity" then
           ∃ username,
             username_of (inbound w) = Ok username
             ∧ if truthy username then
                 ∃ attrs,
                   kept_attributes (inbound w) = JDict attrs
                   ∧ attributes_of response
                     = Some (JDict (<["UserName" := username]> attrs))
               else attributes_of response = Some (kept_attributes (inbound w))
         else if eq_str name "Emergencyhelpline" then
           attributes_of response
           = Some (default (JDict ∅) (received_attributes (inbound w)))
         else attributes_of response = Some (kept_attributes (inbound w))).
Proof.
  intros repr agent_run predict w. cbv zeta. rewrite dispatch_run.
  split; [| split].
  - intros username top state attrs Hname Husername Htrue Htop Hstate
      Hattrs Hsize.
    rewrite Hname. unfold routing_table.
    change (eq_str (JStr "VerifyIdentity") "VerifyIdentity") with true.
    cbv iota.
    rewrite (verify_identity_stores repr w username top state attrs)
      by assumption.
    cbn [snd inbound]. unfold with_username. split; [reflexivity |].
    rewrite at_path_key, lookup_insert_eq. cbn [mbind option_bind].
    rewrite at_path_key, lookup_insert_eq. cbn [mbind option_bind].
    rewrite at_path_key, lookup_insert_eq. reflexivity.
  - destruct (intent_name_of (inbound w)) as [name|e] eqn:Hname; [|by left].
    unfold routing_table.
    destruct (eq_str name "VerifyIdentity") eqn:Hverify.
    { apply eq_str_true in Hverify as ->.
      destruct (verify_identity_inbound repr w)
        as [Hsame | (username & top & state & attrs & H)]; [by left |].
      right. exists username, top, state, attrs. by split. }
    destruct (eq_str name "Emergencyhelpline").
    + left. apply keeps_emergency_helpline.
    + left. apply keeps_genai_intent.
  - intros name response Hname. rewrite Hname. unfold routing_table.
    destruct (eq_str name "VerifyIdentity");
      [apply verify_identity_sends |].
    destruct (eq_str name "Emergencyhelpline");
      [apply emergency_helpline_sends | apply genai_intent_sends].
Qed.

(** On [identity_event] the store happens: the event afterwards holds
    "alex" under "UserName" beside the entry it came with, and so does the
    directive. *)
Lemma dispatch_frame_witness :
  let run :=
    dispatch stub_repr stub_agent stub_predict (fresh_world identity_event)
  in
  at_path [Key "sessionState"; Key "sessionAttributes"; Key "UserName"]
    (inbound run.2) = Some (JStr "alex")
  ∧ at_path [Key "sessionState"; Key "sessionAttributes"; Key "visits"]
      (inbound run.2) = Some (JStr "3")
  ∧ ∃ response,
      run.1 = Ok response
      ∧ attributes_of response
        = Some (dict [("visits", JStr "3"); ("UserName", JStr "alex")]).
Proof.
  cbv zeta.
  destruct (dispatch_frame stub_repr stub_agent stub_predict
              (fresh_world identity_event)) as (Hstores & _ & Hsends).
  destruct (Hstores (JStr "alex")
              (list_to_map
                 [("sessionId", JStr "s1");
                  ("invocationSource", JStr "DialogCodeHook");
                  ("inputTranscript", JStr "hello");
                  ("sessionState",
                   dict [("intent",
                          dict [("name", JStr "VerifyIdentity");
                                ("slots", dict [("UserName", filled "alex")]);
                                ("state", JStr "InProgress")]);
                         ("sessionAttributes", dict [("visits", JStr "3")])])])
              (list_to_map
                 [("intent",
                   dict [("name", JStr "VerifyIdentity");
                         ("slots", dict [("UserName", filled "alex")]);
                         ("state", JStr "InProgress")]);
                  ("sessionAttributes", dict [("visits", JStr "3")])])
              (list_to_map [("visits", JStr "3")])
              eq_refl eq_refl eq_refl eq_refl eq_refl eq_refl
              ltac:(vm_compute; discriminate))
    as [Hevent Hname].
  split; [exact Hname |].
  split; [rewrite Hevent; vm_compute; reflexivity |].
  exists (elicit_intent JNull
            (dict [("visits", JStr "3"); ("UserName", JStr "alex")])
            (acknowledgement stub_repr (JStr "alex"))).
  split; [reflexivity |].
  destruct (Hsends (JStr "VerifyIdentity")
              (elicit_intent JNull
                 (dict [("visits", JStr "3"); ("UserName", JStr "alex")])
                 (acknowledgement stub_repr (JStr "alex")))
              eq_refl eq_refl)
    as (username & Husername & Hsent).
  vm_compute in Husername. injection Husername as <-.
  destruct Hsent as (attrs & Hattrs & Hsent).
  vm_compute in Hattrs. injection Hattrs as <-.
  rewrite Hsent. vm_compute. reflexivity.
Defined.

(** * Further properties *)

(** ** Slot accessor: failures and empty values *)

Lemma getitem_Raise v k e :
  getitem v k = Raise e →
  (not_a_mapping v = true ∧ e = TypeError)
  ∨ (∃ d, v = JDict d ∧ d !! k = None ∧ e = KeyError k).
Proof.
  destruct v as [| | | | |d]; simpl; try (intros [= <-]; by left).
  destruct (d !! k) eqn:Hk; intros [= <-]. right. eauto.
Qed.

(** X1: [try_ex] is safe for the absent holder only.  A holder that is a
    mapping without a "value" entry raises [KeyError], and a holder that is
    present but not a mapping raises [TypeError]; neither gives [None]. *)
Theorem try_ex_unsafe_holder :
  (∀ d : gmap string json,
      d !! "value" = None → try_ex (JDict d) = Raise (KeyError "value"))
  ∧ (∀ holder : json,
       holder ≠ JNull → not_a_mapping holder = true →
       try_ex holder = Raise TypeError).
Proof.
  split.
  - intros d Hvalue. unfold try_ex. rewrite getitem_dict, Hvalue. reflexivity.
  - intros holder Hpresent Hshape.
    destruct holder; try discriminate; try reflexivity. congruence.
Qed.

Lemma try_ex_unsafe_holder_witness :
  try_ex (dict [("shape", JStr "Scalar")]) = Raise (KeyError "value")
  ∧ try_ex (JStr "alex") = Raise TypeError.
Proof.
  split.
  - apply (proj1 try_ex_unsafe_holder). reflexivity.
  - apply (proj2 try_ex_unsafe_holder); [discriminate | reflexivity].
Defined.

(** X2: whatever goes wrong in [try_ex] is a [TypeError] or a [KeyError] on
    one of the four keys it subscripts. *)
Theorem try_ex_raises_only :
  ∀ (holder : json) (e : exn),
    try_ex holder = Raise e →
    e = TypeError
    ∨ ∃ k, e = KeyError k
           ∧ k ∈ ["value"; "resolvedValues"; "interpretedValue";
                   "originalValue"].
Proof.
  intros holder e.
  assert (∀ v k, k ∈ ["value"; "resolvedValues"; "interpretedValue";
                       "originalValue"] →
                 getitem v k = Raise e →
                 e = TypeError
                 ∨ ∃ k, e = KeyError k
                        ∧ k ∈ ["value"; "resolvedValues"; "interpretedValue";
                                "originalValue"]) as Hitem.
  { intros v k Hk Hraise.
    destruct (getitem_Raise _ _ _ Hraise) as [[_ ->] | (d & _ & _ & ->)];
      [by left | right; eauto]. }
  assert (try_ex holder = Ok JNull ∨ ∀ inner,
            getitem holder "value" = Ok inner →
            try_ex holder =
              (resolved ← getitem inner "resolvedValues";
               if truthy resolved then getitem inner "interpretedValue"
               else original ← getitem inner "originalValue";
                    if truthy original then getitem inner "originalValue"
                    else Ok JNull)) as [-> | Hbody];
    [destruct holder; (by left) || (right; apply try_ex_present)
    | discriminate |].
  destruct (getitem holder "value") as [inner|e'] eqn:Hvalue.
  - rewrite (Hbody _ eq_refl).
    destruct (getitem inner "resolvedValues") as [resolved|] eqn:Hresolved;
      cbn [mbind result_bind];
      [| intros [= <-]; apply (Hitem inner "resolvedValues");
         [set_solver | exact Hresolved]].
    destruct (truthy resolved).
    { intros Hraise. apply (Hitem inner "interpretedValue");
        [set_solver | exact Hraise]. }
    destruct (getitem inner "originalValue") as [original|] eqn:Horiginal;
      cbn [mbind result_bind];
      [| intros [= <-]; apply (Hitem inner "originalValue");
         [set_solver | exact Horiginal]].
    destruct (truthy original); discriminate.
  - intros Hraise. apply (Hitem holder "value"); [set_solver |].
    rewrite Hvalue. f_equal.
    unfold try_ex in Hraise. destruct holder; try discriminate;
      rewrite Hvalue in Hraise; by injection Hraise.
Qed.

Lemma try_ex_raises_only_witness :
  KeyError "value" = TypeError
  ∨ ∃ k, KeyError "value" = KeyError k
         ∧ k ∈ ["value"; "resolvedValues"; "interpretedValue";
                 "originalValue"].
Proof.
  apply (try_ex_raises_only (dict [("shape", JStr "Scalar")])). reflexivity.
Defined.

(** X3: with no resolved values, [try_ex] never hands out an empty raw value:
    the result is the holder's [originalValue] when Python counts it as
    true, and [None] otherwise. *)
Theorem try_ex_original_or_none :
  ∀ holder inner resolved result : json,
    getitem holder "value" = Ok inner →
    getitem inner "resolvedValues" = Ok resolved →
    truthy resolved = false →
    try_ex holder = Ok result →
    (result = JNull ∧ ∃ original, getitem inner "originalValue" = Ok original
                                  ∧ truthy original = false)
    ∨ (truthy result = true ∧ getitem inner "originalValue" = Ok result).
Proof.
  intros holder inner resolved result Hvalue Hresolved Hfalse.
  rewrite (try_ex_present _ _ Hvalue), Hresolved. simpl. rewrite Hfalse.
  destruct (getitem inner "originalValue") as [original|] eqn:Horiginal;
    simpl; [|discriminate].
  destruct (truthy original) eqn:Htrue.
  - intros [= <-]. right. by split.
  - intros [= <-]. left. split; [reflexivity | eauto].
Qed.

Lemma try_ex_original_or_none_witness :
  (JNull = JNull
   ∧ ∃ original,
       getitem (dict [("originalValue", JStr EmptyString);
                      ("interpretedValue", JStr EmptyString);
                      ("resolvedValues", JList [])]) "originalValue"
       = Ok original
       ∧ truthy original = false)
  ∨ (truthy JNull = true
     ∧ getitem (dict [("originalValue", JStr EmptyString);
                      ("interpretedValue", JStr EmptyString);
                      ("resolvedValues", JList [])]) "originalValue"
       = Ok JNull).
Proof.
  apply (try_ex_original_or_none blank_holder _ (JList []) JNull);
    reflexivity.
Defined.

(** ** Response builders: [delegate] against [elicit_slot] *)

(** X4: on the same arguments [delegate] and [elicit_slot] build the same
    response except for [dialogAction]: every other entry of
    [sessionState] and every top-level entry agree, [elicit_slot] asks for
    the slot and [delegate] names none. *)
Theorem delegate_differs_in_action_only :
  ∀ session_attributes active_contexts intent slot message : json,
    let asked :=
      elicit_slot session_attributes active_contexts intent slot message in
    let handed :=
      delegate session_attributes active_contexts intent message in
    (∀ k, k ≠ "dialogAction" →
       at_path [Key "sessionState"; Key k] handed
       = at_path [Key "sessionState"; Key k] asked)
    ∧ (∀ k, k ≠ "sessionState" →
         at_path [Key k] handed = at_path [Key k] asked)
    ∧ at_path [Key "sessionState"; Key "dialogAction"] asked
      = Some (dict [("type", JStr "ElicitSlot"); ("slotToElicit", slot)])
    ∧ at_path [Key "sessionState"; Key "dialogAction"] handed
      = Some (dict [("type", JStr "Delegate")]).
Proof.
  intros sa ac intent slot message asked handed.
  subst asked handed. unfold delegate, elicit_slot, dict.
  repeat split.
  - intros k Hk.
    rewrite !at_path_key, !list_to_map_cons, !lookup_insert_eq.
    cbn [mbind option_bind].
    rewrite !at_path_key, ?list_to_map_cons, !lookup_insert.
    repeat case_decide; congruence.
  - intros k Hk.
    rewrite !at_path_key, !list_to_map_cons.
    rewrite !(lookup_insert_ne _ "sessionState" k) by congruence.
    reflexivity.
Qed.

Lemma delegate_differs_in_action_only_witness :
  at_path [Key "sessionState"; Key "intent"]
    (delegate JNull JNull (JStr "i") (JStr "m"))
  = at_path [Key "sessionState"; Key "intent"]
      (elicit_slot JNull JNull (JStr "i") (JStr "s") (JStr "m")).
Proof.
  apply (proj1 (delegate_differs_in_action_only JNull JNull (JStr "i")
                  (JStr "s") (JStr "m"))).
  discriminate.
Defined.

(** ** Emergency helpline: edges of the slots map and the message set *)

(** X5: [intent.get("slots", {})] guards a missing entry only.  Without a
    "slots" entry the handler asks for the selection, whatever else the
    intent holds (not even a name is needed); with a "slots" entry that is
    not a mapping, such as null, it raises [AttributeError] and leaves the
    world alone. *)
Theorem emergency_helpline_slots_edge :
  ∀ (w : world) (top state fields : gmap string json),
    inbound w = JDict top →
    top !! "sessionState" = Some (JDict state) →
    state !! "intent" = Some (JDict fields) →
    (fields !! "slots" = None →
       ∃ response,
         emergency_helpline w = (Ok response, w)
         ∧ directive response = Some (JStr "ElicitSlot")
         ∧ slot_to_elicit response = Some (JStr "Selection"))
    ∧ (∀ slots, fields !! "slots" = Some slots →
         not_a_mapping slots = true →
         emergency_helpline w = (Raise AttributeError, w)).
Proof.
  intros w top state fields Htop Hstate Hintent.
  unfold emergency_helpline. run_M.
  rewrite Htop, !getitem_dict, Hstate, !get_dict, !getitem_dict, Hintent,
    get_dict.
  split.
  - intros ->. eexists. split; [reflexivity |]. repeat split.
  - intros slots -> Hshape. cbn [from_option id].
    destruct slots; try discriminate; reflexivity.
Qed.

Lemma emergency_helpline_slots_edge_witness :
  ∃ response,
    emergency_helpline (fresh_world bare_helpline_event)
    = (Ok response, fresh_world bare_helpline_event)
    ∧ directive response = Some (JStr "ElicitSlot").
Proof.
  destruct (proj1 (emergency_helpline_slots_edge
                     (fresh_world bare_helpline_event)
                     (list_to_map
                        [("sessionState",
                          dict [("intent",
                                 dict [("name", JStr "Emergencyhelpline")])])])
                     (list_to_map
                        [("intent", dict [("name", JStr "Emergencyhelpline")])])
                     (list_to_map [("name", JStr "Emergencyhelpline")])
                     eq_refl eq_refl eq_refl) eq_refl)
    as (response & Hrun & Hkind & _).
  exists response. by split.
Defined.

(** X6: whatever the turn event holds, a response of [emergency_helpline]
    carries one of seven texts fixed in advance (the menu, the five helpline
    texts and the not-understood text).  Nothing the user sent is echoed. *)
Theorem emergency_helpline_fixed_texts :
  ∃ texts : list string,
    length texts = 7%nat
    ∧ ∀ (w : world) (response : json),
        (emergency_helpline w).1 = Ok response →
        ∃ text, message_text response = Some (JStr text) ∧ text ∈ texts.
Proof.
  exists helpline_texts. split; [reflexivity |].
  intros w response. unfold emergency_helpline. run_M. intros Hrun.
  assert (∀ selection, helpline_message selection ∈ helpline_texts) as Htext.
  { intros selection. unfold helpline_message, helpline_texts.
    repeat case_match; set_solver. }
  repeat (match type of Hrun with
          | context [match ?r with Ok _ => _ | Raise _ => _ end] => destruct r
          | context [if ?c then _ else _] => destruct c
          end; cbv beta iota in Hrun; cbn [fst] in Hrun; try discriminate).
  all: injection Hrun as <-; eexists; (split; [reflexivity |]).
  all: try apply Htext.
  all: unfold helpline_texts; set_solver.
Qed.

Lemma emergency_helpline_fixed_texts_witness :
  ∃ texts : list string,
    length texts = 7%nat
    ∧ ∃ text,
        message_text
          (dict [("sessionState",
                  dict [("dialogAction",
                         dict [("type", JStr "ElicitSlot");
                               ("slotToElicit", JStr "Selection")]);
                        ("intent", dict [("name", JStr "Emergencyhelpline")]);
                        ("sessionAttributes", dict [])]);
                 ("messages",
                  JList [dict [("contentType", JStr "PlainText");
                               ("content", JStr menu_text)]])])
        = Some (JStr text)
        ∧ text ∈ texts.
Proof.
  destruct emergency_helpline_fixed_texts as (texts & Hlength & Hall).
  exists texts. split; [exact Hlength |].
  apply (Hall (fresh_world bare_helpline_event)). reflexivity.
Defined.

(** X7: the selection is matched as text, exactly.  A selection gets the
    text of the digit [k] ("1" to "5") if and only if it is the string [k]
    itself, and it gets the text an absent selection would get if and only
    if it is none of the five strings: a number 1, or "1" with a blank
    around it, selects no helpline text. *)
Theorem helpline_message_exact :
  ∀ selection : json,
    (∀ k, k ∈ ["1"; "2"; "3"; "4"; "5"] →
       helpline_message selection = helpline_message (JStr k)
       ↔ selection = JStr k)
    ∧ ((∀ k, k ∈ ["1"; "2"; "3"; "4"; "5"] → selection ≠ JStr k)
       ↔ helpline_message selection = helpline_message JNull).
Proof.
  intros selection. split.
  - intros k Hk. split; [| by intros ->].
    repeat (apply elem_of_cons in Hk as [-> | Hk]);
      [.. | by apply elem_of_nil in Hk].
    all: destruct selection as [| | |t| |]; try discriminate;
      unfold helpline_message at 1; unfold eq_str;
      repeat match goal with
             | |- context [String.eqb t ?d] =>
                 destruct (String.eqb_spec t d) as [->|?]
             end;
      intros Hsame; first [reflexivity | vm_compute in Hsame; discriminate].
  - change (helpline_message JNull) with not_understood. split.
    + apply helpline_message_other.
    + intros Hnone k Hk ->.
      repeat (apply elem_of_cons in Hk as [-> | Hk]);
        [.. | by apply elem_of_nil in Hk]; discriminate.
Qed.

Lemma helpline_message_exact_witness :
  helpline_message (JNum 1) = helpline_message JNull.
Proof.
  apply (proj1 (proj2 (helpline_message_exact (JNum 1)))).
  intros k _. discriminate.
Defined.

(** ** What a dispatch does to memory and output *)

Lemma keeps_store_ret {A : Type} (a : A) : keeps_store (mret a).
Proof. intros w. by split. Qed.

Lemma keeps_store_bind {A B : Type} (m : M A) (f : A → M B) :
  keeps_store m → (∀ a, keeps_store (f a)) → keeps_store (m ≫= f).
Proof.
  intros Hm Hf w. unfold mbind, M_bind. specialize (Hm w).
  destruct (m w) as [[a|e] w']; simpl in *; [|exact Hm].
  destruct (Hf a w') as [Hmemory Hout]. destruct Hm as [<- <-]. by split.
Qed.

Lemma keeps_store_lift {A : Type} (r : result A) : keeps_store (lift r).
Proof. intros w. by split. Qed.

Lemma keeps_store_throw {A : Type} (e : exn) :
  keeps_store (@mthrow _ M _ A e).
Proof. intros w. by split. Qed.

Lemma keeps_store_get_inbound : keeps_store get_inbound.
Proof. intros w. by split. Qed.

Lemma keeps_store_put_inbound e : keeps_store (put_inbound e).
Proof. intros w. by split. Qed.

Create HintDb store discriminated.

#[global] Hint Resolve keeps_store_ret keeps_store_lift keeps_store_throw
  keeps_store_get_inbound keeps_store_put_inbound : store.

Ltac store_walk :=
  repeat first
    [ progress eauto with store
    | apply keeps_store_bind; [|intros ?]
    | match goal with
      | |- keeps_store (if ?b then _ else _) => destruct b
      | |- keeps_store (match ?r with Fresh _ => _ | Shared => _ end) =>
          destruct r
      | |- keeps_store (match ?v with JDict _ => _ | _ => _ end) =>
          destruct v
      end ].

Lemma keeps_store_session_attributes_or_new :
  keeps_store session_attributes_or_new.
Proof. unfold session_attributes_or_new. store_walk. Qed.

Lemma keeps_store_deref r : keeps_store (deref r).
Proof. unfold deref. store_walk. Qed.

Lemma keeps_store_setitem r k v : keeps_store (setitem r k v).
Proof. unfold setitem. store_walk. Qed.

#[global] Hint Resolve keeps_store_session_attributes_or_new keeps_store_deref
  keeps_store_setitem : store.

Lemma keeps_store_emergency_helpline : keeps_store emergency_helpline.
Proof. unfold emergency_helpline. store_walk. Qed.

Lemma keeps_store_verify_identity repr : keeps_store (verify_identity repr).
Proof. unfold verify_identity. store_walk. Qed.

(** Off the dialog hook, or where the event cannot be read, [genai_intent]
    leaves memory and output alone. *)
Lemma genai_intent_store agent_run predict w :
  (turn_memory (genai_intent agent_run predict w).2 = turn_memory w
   ∧ stdout (genai_intent agent_run predict w).2 = stdout w)
  ∨ getitem (inbound w) "invocationSource" = Ok (JStr "DialogCodeHook").
Proof.
  unfold genai_intent.
  pose proof (keeps_store_session_attributes_or_new w) as Hkeep.
  pose proof (keeps_session_attributes_or_new w) as Hsame.
  run_M. destruct (session_attributes_or_new w) as [[r|e] w1];
    cbn [snd] in *; [|by left].
  rewrite <- (proj1 Hkeep), <- (proj2 Hkeep).
  destruct (getitem (inbound w) "sessionId") as [session_id|]; [|by left].
  destruct (getitem (inbound w) "invocationSource") as [source|]; [|by left].
  destruct (eq_str source "DialogCodeHook") eqn:Hhook; [|by left].
  right. by rewrite (eq_str_true _ _ Hhook).
Qed.

(** X8: a dispatch writes to the conversation memory and prints only on one
    route: an intent other than VerifyIdentity and Emergencyhelpline, on an
    event whose invocation source is "DialogCodeHook".  On every other
    event, failing ones included, memory and output stay as they were. *)
Theorem dispatch_store_frame :
  ∀ repr agent_run predict (w : world),
    let after := (dispatch repr agent_run predict w).2 in
    (turn_memory after = turn_memory w ∧ stdout after = stdout w)
    ∨ (∃ name,
         intent_name_of (inbound w) = Ok name
         ∧ eq_str name "VerifyIdentity" = false
         ∧ eq_str name "Emergencyhelpline" = false
         ∧ getitem (inbound w) "invocationSource"
           = Ok (JStr "DialogCodeHook")).
Proof.
  intros repr agent_run predict w. cbv zeta. rewrite dispatch_run.
  destruct (intent_name_of (inbound w)) as [name|e] eqn:Hname; [|by left].
  unfold routing_table.
  destruct (eq_str name "VerifyIdentity") eqn:Hverify.
  { left. apply keeps_store_verify_identity. }
  destruct (eq_str name "Emergencyhelpline") eqn:Hhelpline.
  { left. apply keeps_store_emergency_helpline. }
  destruct (genai_intent_store agent_run predict w) as [Hkeep | Hhook];
    [by left |].
  right. exists name. by repeat split.
Qed.

(** ** Session attributes, entry by entry *)

Lemma falsy_lookup (v : json) (k : string) :
  truthy v = false → select (Key k) v = None.
Proof.
  destruct v as [| | | | |d]; try reflexivity. cbn [truthy select].
  intros Hsize. apply negb_false_iff, Nat.eqb_eq, map_size_empty_iff in Hsize.
  subst d. apply lookup_empty.
Qed.

Lemma kept_lookup (intent_request : json) (k : string) :
  select (Key k) (kept_attributes intent_request)
  = received_attributes intent_request ≫= select (Key k).
Proof.
  unfold kept_attributes, or_else.
  destruct (received_attributes intent_request) as [found|];
    cbn [from_option id truthy mbind option_bind];
    [|apply lookup_empty].
  destruct (truthy found) eqn:Htrue; [reflexivity |].
  cbn [select]. rewrite lookup_empty. symmetry. by apply falsy_lookup.
Qed.

Lemma at_path_snoc path s v :
  at_path (path ++ [s])%list v = at_path path v ≫= select s.
Proof. unfold at_path. by rewrite foldl_app. Qed.

(** X9: no session attribute is lost or altered on the way through a
    dispatch.  Under every key other than "UserName", the session
    attributes of a returned directive hold what the inbound event held
    under that key (and nothing where the event held nothing). *)
Theorem dispatch_keeps_every_attribute :
  ∀ repr agent_run predict (w : world) (response : json) (k : string),
    (dispatch repr agent_run predict w).1 = Ok response →
    k ≠ "UserName" →
    at_path [Key "sessionState"; Key "sessionAttributes"; Key k] response
    = at_path [Key "sessionState"; Key "sessionAttributes"; Key k]
        (inbound w).
Proof.
  intros repr agent_run predict w response k Hrun Hk.
  change [Key "sessionState"; Key "sessionAttributes"; Key k]
    with ([Key "sessionState"; Key "sessionAttributes"] ++ [Key k])%list.
  rewrite !at_path_snoc.
  fold (attributes_of response). fold (received_attributes (inbound w)).
  rewrite <- (kept_lookup (inbound w)).
  rewrite dispatch_run in Hrun.
  destruct (intent_name_of (inbound w)) as [name|]; [|discriminate].
  unfold routing_table in Hrun.
  destruct (eq_str name "VerifyIdentity").
  { destruct (verify_identity_sends repr w response Hrun)
      as (username & _ & Hsent).
    destruct (truthy username).
    - destruct Hsent as (attrs & -> & ->). cbn [mbind option_bind select].
      by rewrite lookup_insert_ne by congruence.
    - by rewrite Hsent. }
  destruct (eq_str name "Emergencyhelpline").
  - rewrite (emergency_helpline_sends w response Hrun), kept_lookup.
    destruct (received_attributes (inbound w)); [reflexivity |].
    apply lookup_empty.
  - by rewrite (genai_intent_sends agent_run predict w response Hrun).
Qed.

Lemma dispatch_keeps_every_attribute_witness :
  at_path [Key "sessionState"; Key "sessionAttributes"; Key "visits"]
    (elicit_intent JNull
       (dict [("visits", JStr "3"); ("UserName", JStr "alex")])
       (acknowledgement stub_repr (JStr "alex")))
  = at_path [Key "sessionState"; Key "sessionAttributes"; Key "visits"]
      identity_event.
Proof.
  apply (dispatch_keeps_every_attribute stub_repr stub_agent stub_predict
           (fresh_world identity_event)); [reflexivity | discriminate].
Defined.

(** ** Asking twice *)

Lemma username_of_state top state :
  top !! "sessionState" = Some (JDict state) →
  username_of (JDict top) =
    (intent ← getitem (JDict state) "intent";
     slots ← getitem intent "slots";
     holder ← getitem slots "UserName";
     try_ex holder).
Proof.
  intros Hstate. unfold username_of. by rewrite getitem_dict, Hstate.
Qed.

Lemma world_eta w : World (inbound w) (turn_memory w) (stdout w) = w.
Proof. by destruct w. Qed.

Lemma emergency_helpline_world w : (emergency_helpline w).2 = w.
Proof.
  pose proof (keeps_emergency_helpline w) as Hevent.
  destruct (keeps_store_emergency_helpline w) as [Hmemory Hout].
  rewrite <- (world_eta (emergency_helpline w).2), Hevent, Hmemory, Hout.
  apply world_eta.
Qed.

Lemma truthy_insert (k : string) (v : json) (d : gmap string json) :
  truthy (JDict (<[k := v]> d)) = true.
Proof.
  cbn [truthy]. apply negb_true_iff, Nat.eqb_neq. intros Hsize.
  apply map_size_empty_iff in Hsize. by apply insert_non_empty in Hsize.
Qed.

(** X10: the scripted routes can be asked twice.  When a dispatch routed to
    [verify_identity] or [emergency_helpline] returns a directive,
    dispatching once more on the world it left returns the same directive
    and changes nothing further: the user name stored in place by the first
    run is what the second run stores again. *)
Theorem scripted_dispatch_idempotent :
  ∀ repr agent_run predict (w w' : world) (name response : json),
    intent_name_of (inbound w) = Ok name →
    eq_str name "VerifyIdentity" || eq_str name "Emergencyhelpline" = true →
    dispatch repr agent_run predict w = (Ok response, w') →
    dispatch repr agent_run predict w' = (Ok response, w').
Proof.
  intros repr agent_run predict w w' name response Hname Hroute Hrun.
  rewrite dispatch_run, Hname in Hrun. unfold routing_table in Hrun.
  destruct (eq_str name "VerifyIdentity") eqn:Hverify.
  2: { cbn [orb] in Hroute. rewrite Hroute in Hrun.
       pose proof (emergency_helpline_world w) as Hworld.
       rewrite Hrun in Hworld. cbn [snd] in Hworld. subst w'.
       by rewrite dispatch_run, Hname, <- Hrun; unfold routing_table;
         rewrite Hverify, Hroute. }
  destruct (username_of (inbound w)) as [username|e] eqn:Husername.
  2: { by rewrite (verify_identity_fails _ _ _ Husername) in Hrun. }
  destruct (username_of_event _ _ Husername) as (top & state & Htop & Hstate).
  destruct (verify_identity_run repr w top state username Htop Hstate Husername)
    as (fields & Hintent & Hshape).
  assert (∀ w0, (inbound w0 = inbound w ∨
                 ∃ attrs, state !! "sessionAttributes" = Some (JDict attrs)
                          ∧ inbound w0 = with_username username top state attrs) →
                intent_name_of (inbound w0) = Ok name
                ∧ username_of (inbound w0) = Ok username) as Hreads.
  { intros w0 [-> | (attrs & Hattrs & ->)]; [by split |].
    rewrite Htop in Hname, Husername. unfold with_username.
    rewrite (username_of_state top state Hstate) in Husername.
    rewrite (username_of_state _ _ (lookup_insert_eq _ _ _)).
    unfold intent_name_of in *.
    rewrite getitem_dict, Hstate in Hname.
    rewrite !getitem_dict, lookup_insert_eq.
    cbn [mbind result_bind] in *.
    rewrite getitem_dict in Hname, Husername.
    rewrite !getitem_dict, lookup_insert_ne by discriminate.
    by split. }
  rewrite Hshape in Hrun. cbv zeta in Hrun.
  assert (w' = w ∨
          ∃ attrs, state !! "sessionAttributes" = Some (JDict attrs)
                   ∧ truthy username = true
                   ∧ w' = World (with_username username top state attrs)
                            (turn_memory w) (stdout w)
                   ∧ response =
                       elicit_intent (with_username username top state attrs)
                         (JDict (<["UserName" := username]> attrs))
                         (acknowledgement repr username))
    as [-> | (attrs & Hattrs & Htrue & -> & ->)].
  { destruct (truthy username); [|left; congruence].
    destruct (state !! "sessionAttributes") as [found|];
      cbn [from_option id truthy] in Hrun; [|left; congruence].
    destruct (truthy found); [|left; congruence].
    destruct found; try discriminate.
    right. injection Hrun as <- <-. eauto 6. }
  - rewrite dispatch_run, Hname. unfold routing_table. rewrite Hverify.
    by rewrite Hshape.
  - set (attrs' := <["UserName" := username]> attrs).
    set (state' := <["sessionAttributes" := JDict attrs']> state).
    set (top' := <["sessionState" := JDict state']> top).
    set (w1 := World (with_username username top state attrs)
                 (turn_memory w) (stdout w)).
    destruct (Hreads w1) as [Hname1 Husername1].
    { right. exists attrs. by split. }
    rewrite dispatch_run, Hname1. unfold routing_table. rewrite Hverify.
    destruct (verify_identity_run repr w1 top' state' username eq_refl
                (lookup_insert_eq _ _ _) Husername1)
      as (fields1 & _ & ->).
    rewrite Htrue. cbv zeta. unfold state' at 1 2.
    rewrite lookup_insert_eq. cbn [from_option id].
    unfold attrs' at 1. rewrite truthy_insert.
    unfold with_username, w1, top', state', attrs'.
    cbn [turn_memory stdout].
    rewrite !insert_insert_eq. reflexivity.
Qed.

Lemma scripted_dispatch_idempotent_witness :
  let first :=
    dispatch stub_repr stub_agent stub_predict (fresh_world identity_event) in
  dispatch stub_repr stub_agent stub_predict first.2 = first.
Proof.
  cbv zeta.
  refine (scripted_dispatch_idempotent stub_repr stub_agent stub_predict
            (fresh_world identity_event) _ (JStr "VerifyIdentity") _
            eq_refl eq_refl _).
  reflexivity.
Defined.

(** ** The fallback route, on and off the dialog hook *)

(** X11: off the dialog hook the fallback route always fails, and fails
    clean.  For an intent other than VerifyIdentity and Emergencyhelpline,
    on an event with a session state mapping and a session id, any
    invocation source other than "DialogCodeHook" makes the dispatch raise
    [UnboundLocalError] with the whole world as it was: the agent is not
    invoked, nothing is remembered or printed. *)
Theorem dispatch_off_hook :
  ∀ repr agent_run predict (w : world) (name session_id source : json),
    intent_name_of (inbound w) = Ok name →
    eq_str name "VerifyIdentity" = false →
    eq_str name "Emergencyhelpline" = false →
    getitem (inbound w) "sessionId" = Ok session_id →
    getitem (inbound w) "invocationSource" = Ok source →
    eq_str source "DialogCodeHook" = false →
    dispatch repr agent_run predict w = (Raise (UnboundLocalError "output"), w).
Proof.
  intros repr agent_run predict w name session_id source
    Hname Hverify Hhelpline Hid Hsource Hhook.
  rewrite dispatch_run, Hname. unfold routing_table.
  rewrite Hverify, Hhelpline.
  destruct (intent_name_event _ _ Hname)
    as (top & state & fields & Htop & Hstate & _ & _).
  apply (genai_intent_off_hook agent_run predict w (JDict state)
           session_id source); eauto.
  by rewrite Htop, getitem_dict, Hstate.
Qed.

Lemma dispatch_off_hook_witness :
  dispatch stub_repr stub_agent stub_predict (fresh_world fulfillment_event)
  = (Raise (UnboundLocalError "output"), fresh_world fulfillment_event).
Proof.
  apply (dispatch_off_hook stub_repr stub_agent stub_predict
           (fresh_world fulfillment_event) (JStr "FallbackIntent")
           (JStr "s1") (JStr "FulfillmentCodeHook")); reflexivity.
Defined.



(** ** Dispatcher: unreadable events and the shape of what comes back *)

(** X13: an event from which the intent name cannot be read stops the
    dispatch before any handler runs.  A missing "sessionState", "intent"
    or "name" entry raises [KeyError] on that key, in this order, and the
    world stays as it was. *)
Theorem dispatch_unreadable_event :
  ∀ repr agent_run predict (w : world) (top : gmap string json),
    inbound w = JDict top →
    (top !! "sessionState" = None →
       dispatch repr agent_run predict w
       = (Raise (KeyError "sessionState"), w))
    ∧ (∀ state, top !! "sessionState" = Some (JDict state) →
         state !! "intent" = None →
         dispatch repr agent_run predict w = (Raise (KeyError "intent"), w))
    ∧ (∀ state fields, top !! "sessionState" = Some (JDict state) →
         state !! "intent" = Some (JDict fields) →
         fields !! "name" = None →
         dispatch repr agent_run predict w = (Raise (KeyError "name"), w)).
Proof.
  intros repr agent_run predict w top Htop.
  repeat split.
  - intros Hstate. rewrite dispatch_run. unfold intent_name_of.
    by rewrite Htop, getitem_dict, Hstate.
  - intros state Hstate Hintent. rewrite dispatch_run. unfold intent_name_of.
    rewrite Htop, getitem_dict, Hstate. cbn [mbind result_bind].
    by rewrite getitem_dict, Hintent.
  - intros state fields Hstate Hintent Hname.
    rewrite dispatch_run. unfold intent_name_of.
    rewrite Htop, getitem_dict, Hstate. cbn [mbind result_bind].
    rewrite getitem_dict, Hintent. cbn [mbind result_bind].
    by rewrite getitem_dict, Hname.
Qed.

Lemma dispatch_unreadable_event_witness :
  dispatch stub_repr stub_agent stub_predict
    (fresh_world (dict [("sessionState", dict [])]))
  = (Raise (KeyError "intent"), fresh_world (dict [("sessionState", dict [])])).
Proof.
  apply (proj1 (proj2 (dispatch_unreadable_event stub_repr stub_agent
                         stub_predict
                         (fresh_world (dict [("sessionState", dict [])]))
                         (list_to_map [("sessionState", dict [])]) eq_refl))
           ∅); reflexivity.
Defined.

Lemma well_shaped_elicit_intent request attributes text :
  well_shaped (elicit_intent request attributes (JStr text)).
Proof.
  split; [exists "ElicitIntent"; split; [reflexivity | set_solver] |].
  split; [reflexivity | by exists text].
Qed.

Lemma well_shaped_elicit_slot attributes contexts intent slot text :
  well_shaped (elicit_slot attributes contexts intent slot (JStr text)).
Proof.
  split; [exists "ElicitSlot"; split; [reflexivity | set_solver] |].
  split; [reflexivity | by exists text].
Qed.

Lemma verify_identity_shape repr w response :
  (verify_identity repr w).1 = Ok response → well_shaped response.
Proof.
  destruct (username_of (inbound w)) as [username|e] eqn:Husername.
  2: { by rewrite (verify_identity_fails _ _ _ Husername). }
  destruct (username_of_event _ _ Husername) as (top & state & Htop & Hstate).
  destruct (verify_identity_run repr w top state username Htop Hstate Husername)
    as (fields & _ & ->).
  cbv zeta. unfold acknowledgement.
  destruct (truthy username);
    [| intros [= <-]; apply well_shaped_elicit_slot].
  destruct (truthy (default JNull (state !! "sessionAttributes")));
    [| intros [= <-]; apply well_shaped_elicit_intent].
  destruct (default JNull (state !! "sessionAttributes"));
    try discriminate.
  intros [= <-]. apply well_shaped_elicit_intent.
Qed.

Lemma emergency_helpline_shape w response :
  (emergency_helpline w).1 = Ok response → well_shaped response.
Proof.
  unfold emergency_helpline. run_M. intros Hrun.
  repeat (match type of Hrun with
          | context [match ?r with Ok _ => _ | Raise _ => _ end] => destruct r
          | context [if ?c then _ else _] => destruct c
          end; cbv beta iota in Hrun; cbn [fst] in Hrun; try discriminate).
  all: injection Hrun as <-.
  all: split; [eexists; split; [reflexivity | set_solver] |].
  all: split; [reflexivity | eexists; reflexivity].
Qed.

Lemma genai_intent_shape agent_run predict w response :
  (genai_intent agent_run predict w).1 = Ok response → well_shaped response.
Proof.
  unfold genai_intent. run_M.
  destruct (session_attributes_or_new w) as [[r|] w1]; [|discriminate].
  destruct (getitem (inbound w) "sessionId") as [session_id|]; [|discriminate].
  destruct (getitem (inbound w) "invocationSource") as [source|];
    [|discriminate].
  destruct (eq_str source "DialogCodeHook"); [|discriminate].
  destruct (getitem (inbound w) "inputTranscript") as [prompt|];
    [|discriminate].
  destruct (invoke_agent agent_run predict prompt session_id w1)
    as [[output|] w2]; [|discriminate].
  unfold print. run_M.
  destruct (deref r _) as [[stored|] w3]; [|discriminate].
  intros [= <-]. apply well_shaped_elicit_intent.
Qed.

(** X14: whatever directive a dispatch returns is one the platform can act
    on: its dialog action is ElicitSlot, ElicitIntent or Close (never
    Delegate: no route calls [delegate]), and its first message is plain
    text. *)
Theorem dispatch_well_shaped :
  ∀ repr agent_run predict (w : world) (response : json),
    (dispatch repr agent_run predict w).1 = Ok response →
    well_shaped response.
Proof.
  intros repr agent_run predict w response. rewrite dispatch_run.
  destruct (intent_name_of (inbound w)) as [name|]; [|discriminate].
  unfold routing_table.
  destruct (eq_str name "VerifyIdentity"); [apply verify_identity_shape |].
  destruct (eq_str name "Emergencyhelpline");
    [apply emergency_helpline_shape | apply genai_intent_shape].
Qed.

Lemma dispatch_well_shaped_witness :
  well_shaped
    (elicit_intent JNull
       (dict [("visits", JStr "3"); ("UserName", JStr "alex")])
       (acknowledgement stub_repr (JStr "alex"))).
Proof.
  apply (dispatch_well_shaped stub_repr stub_agent stub_predict
           (fresh_world identity_event)).
  reflexivity.
Defined.

(** ** Main handler *)

(** X15: [handler] adds nothing to a dispatch but the time zone, and adds
    it always.  The result, the event as left and the memory and output
    afterwards are those of [dispatch] on the event; the [context] argument
    plays no part; and whether the dispatch returned or raised, the process
    ends with [TZ] set to "America/New_York", working in that zone, and
    with every other environment variable as it was. *)
Theorem handler_is_dispatch_in_new_york :
  ∀ repr agent_run predict (event context : json) (p : process),
    let run :=
      dispatch repr agent_run predict
        (World event (remembered p) (printed p)) in
    let '(outcome, event_after, after) :=
      handler repr agent_run predict event context p in
    outcome = run.1
    ∧ event_after = inbound run.2
    ∧ remembered after = turn_memory run.2
    ∧ printed after = stdout run.2
    ∧ environ after !! "TZ" = Some "America/New_York"
    ∧ timezone after = Some "America/New_York"
    ∧ (∀ variable, variable ≠ "TZ" →
         environ after !! variable = environ p !! variable)
    ∧ ∀ context', handler repr agent_run predict event context' p
                  = handler repr agent_run predict event context p.
Proof.
  intros repr agent_run predict event context p. cbv zeta.
  unfold handler. cbn [environ timezone remembered printed].
  rewrite lookup_insert_eq. repeat split.
  intros variable Hvariable. by rewrite lookup_insert_ne.
Qed.

Lemma handler_is_dispatch_in_new_york_witness :
  environ
    (handler stub_repr stub_agent stub_predict fulfillment_event JNull
       (Process {["AWS_REGION" := "eu-west-2"]} None ∅ [])).2
    !! "AWS_REGION"
  = Some "eu-west-2".
Proof.
  pose proof (handler_is_dispatch_in_new_york stub_repr stub_agent
                stub_predict fulfillment_event JNull
                (Process {["AWS_REGION" := "eu-west-2"]} None ∅ []))
    as Hhandler.
  cbv zeta in Hhandler.
  destruct (handler stub_repr stub_agent stub_predict fulfillment_event JNull
              (Process {["AWS_REGION" := "eu-west-2"]} None ∅ []))
    as [[outcome event_after] after].
  destruct Hhandler as (_ & _ & _ & _ & _ & _ & Hother & _).
  cbn [snd]. rewrite (Hother "AWS_REGION"); [reflexivity | discriminate].
Defined.

